(** * Fms: the flight management system of an aircraft (openscope)

    A shallow embedding of the class [Fms] together with the parts of its
    collaborators that the class calls.  Arrays are lists read with
    stdpp's lookup, numbers are integers, strings are ASCII strings, and a
    method is a computation over the instance that either returns or
    throws, keeping whatever it had already written to the instance. *)

From Stdlib Require Import ZArith Ascii String.
From stdpp Require Import base tactics option list strings.

Local Open Scope string_scope.
Local Open Scope Z_scope.

#[local] Set Warnings "-register-all".

(** ** JavaScript values and the lodash predicates of the constructor *)

(** The values a caller can hand to the constructor as
    [aircraftInitProps].  An object is the sequence of its own enumerable
    properties. *)
Inductive JsValue : Type :=
| JsUndefined
| JsNull
| JsBoolean (b : bool)
| JsNumber (n : Z)
| JsString (s : string)
| JsArray (elements : list JsValue)
| JsObject (props : list (string * JsValue)).

Module Lodash.

(** [_.isObject]: objects and arrays, not [null] and not primitives. *)
Definition _isObject (value : JsValue) : bool :=
  match value with
  | JsArray _ | JsObject _ => true
  | _ => false
  end.

(** [_.isEmpty]: no own enumerable property for an object, length zero
    for an array or a string, and [true] for every other value. *)
Definition _isEmpty (value : JsValue) : bool :=
  match value with
  | JsObject props => bool_decide (props = [])
  | JsArray elements => bool_decide (elements = [])
  | JsString s => bool_decide (s = "")
  | _ => true
  end.

(** [_.isNil] on an array slot: [undefined] when out of range. *)
Definition _isNil {A} (slot : option A) : bool :=
  match slot with
  | None => true
  | Some _ => false
  end.

(** [_.drop(array, n)]: a new array without the first [n] elements. *)
Definition _drop {A} (array : list A) (n : nat) : list A := drop n array.

(** [_.findIndex(array, { key: v })], the index of the first element
    whose property equals [v], or -1. *)
Fixpoint findIndex_from {A} (p : A -> bool) (array : list A) (i : Z) : Z :=
  match array with
  | [] => -1
  | x :: rest => if p x then i else findIndex_from p rest (i + 1)
  end.

Definition _findIndex {A} (array : list A) (p : A -> bool) : Z :=
  findIndex_from p array 0.

End Lodash.

(** Reading a property of a value, [value.key]: [undefined] when the
    value does not own it. *)
Fixpoint assoc (key : string) (props : list (string * JsValue)) : JsValue :=
  match props with
  | [] => JsUndefined
  | (k, v) :: rest => if String.eqb k key then v else assoc key rest
  end.

Definition getProp (value : JsValue) (key : string) : JsValue :=
  match value with
  | JsObject props => assoc key props
  | _ => JsUndefined
  end.

(** ** Strings *)

Module Str.

(** [String.prototype.toLowerCase] on ASCII text. *)
Definition lowerChar (c : ascii) : ascii :=
  let n := nat_of_ascii c in
  if ((65 <=? n)%nat && (n <=? 90)%nat)%bool then ascii_of_nat (n + 32) else c.

Fixpoint toLowerCase (s : string) : string :=
  match s with
  | EmptyString => EmptyString
  | String c rest => String (lowerChar c) (toLowerCase rest)
  end.

(** [Array.prototype.join(separator)]. *)
Definition join (separator : string) (parts : list string) : string :=
  String.concat separator parts.

Definition isDot (c : ascii) : bool := Ascii.eqb c ".".

(** [s.split('..')], scanning left to right; [current] is the text of
    the segment being read. *)
Fixpoint splitOnDots (s : string) (current : string) : list string :=
  match s with
  | EmptyString => [current]
  | String c rest =>
      match rest with
      | String c' rest' =>
          if (isDot c && isDot c')%bool
          then current :: splitOnDots rest' EmptyString
          else splitOnDots rest (current ++ String c EmptyString)
      | EmptyString => splitOnDots rest (current ++ String c EmptyString)
      end
  end.

(** [s.split('.')]. *)
Fixpoint splitOnDot (s : string) (current : string) : list string :=
  match s with
  | EmptyString => [current]
  | String c rest =>
      if isDot c
      then current :: splitOnDot rest EmptyString
      else splitOnDot rest (current ++ String c EmptyString)
  end.

End Str.

(** ** Errors and methods *)

(** What a method can throw.  [TypeError] is both the error the
    constructor raises itself and the one the runtime raises when a
    property of [undefined] is read. *)
Inductive Error : Type :=
| TypeError (message : string)
| AssertionError (message : string)
| MalformedRouteError
| LookupError.

Definition invalidInitProps : Error :=
  TypeError "Invalid aircraftInitProps passed to Fms".

Definition undefinedProperty (prop : string) : Error :=
  TypeError ("Cannot read property '" ++ prop ++ "' of undefined").

(** The result of calling a method on an instance in state [S]: the value
    it returns or the error it throws, with the state the instance is left
    in either way. *)
Inductive Outcome (S A : Type) : Type :=
| Returned (value : A) (this : S)
| Threw (e : Error) (this : S).
Arguments Returned {S A} value this.
Arguments Threw {S A} e this.

Definition Method (S A : Type) : Type := S -> Outcome S A.

Definition ret {S A} (value : A) : Method S A := fun this => Returned value this.

Definition bind {S A B} (m : Method S A) (k : A -> Method S B) : Method S B :=
  fun this =>
    match m this with
    | Returned value this' => k value this'
    | Threw e this' => Threw e this'
    end.

Definition throw {S A} (e : Error) : Method S A := fun this => Threw e this.

Definition getThis {S} : Method S S := fun this => Returned this this.

Definition setThis {S} (this' : S) : Method S unit := fun _ => Returned tt this'.

(** [value.prop] where [value] may be [undefined]. *)
Definition deref {S A} (prop : string) (value : option A) : Method S A :=
  match value with
  | Some v => ret v
  | None => throw (undefinedProperty prop)
  end.

(** An error thrown by a callee that does not touch the instance. *)
Definition liftResult {S A} (r : Error + A) : Method S A :=
  match r with
  | inl e => throw e
  | inr v => ret v
  end.

(** A call into the navigation data: [None] is its lookup error, which
    propagates unchanged. *)
Definition liftLookup {S A} (r : option A) : Method S A :=
  match r with
  | Some v => ret v
  | None => throw LookupError
  end.

Declare Scope method_scope.
Delimit Scope method_scope with method.
Notation "'do' x <- m ; k" := (bind m (fun x => k))
  (at level 10, x name, m at level 100, k at level 200) : method_scope.
Notation "'run' m ; k" := (bind m (fun _ => k))
  (at level 10, m at level 100, k at level 200) : method_scope.

(** ** Collaborators of the class *)

(** Modelled from the spec: [WaypointModel], the entity the legs hold,
    of which the class only reads fields.  A name in lower case, a
    position that is [null] while unresolved, and two restrictions where
    -1 stands for none.  Coordinates are only passed along, never
    computed with. *)
Module WaypointModel.

Record t : Type := mk {
  name : string;
  position : option (list Z);
  altitudeRestriction : Z;
  speedRestriction : Z;
  isHold : bool
}.

End WaypointModel.

(** Modelled from the spec: [LegModel], of which the class only has the
    import and the calls.  A leg is an ordered sequence of waypoints with
    a cursor; [routeString] is what its accessor yields. *)
Module LegModel.

Inductive LegType : Type := DirectFix | Hold | Procedure.

Record t : Type := mk {
  waypointCollection : list WaypointModel.t;
  currentIndex : Z;
  routeString : string;
  legType : LegType
}.

(** [waypointCollection[i]]: [undefined] outside of the array. *)
Definition entry (leg : t) (i : Z) : option WaypointModel.t :=
  if i <? 0 then None else waypointCollection leg !! Z.to_nat i.

(** True iff [currentIndex + 1] is a valid index. *)
Definition hasNextWaypoint (leg : t) : bool :=
  (0 <=? currentIndex leg + 1) && (currentIndex leg + 1 <? Z.of_nat (length (waypointCollection leg))).

(** The entry at [currentIndex]. *)
Definition currentWaypoint (leg : t) : option WaypointModel.t :=
  entry leg (currentIndex leg).

(** The entry at [currentIndex + 1]. *)
Definition nextWaypoint (leg : t) : option WaypointModel.t :=
  entry leg (currentIndex leg + 1).

(** What [moveToNextWaypoint] does when there is no next waypoint: the
    spec leaves both open. *)
Inductive ExhaustedPolicy : Type := NoOp | FatalAssertion.

(** Advances [currentIndex] by one when there is a next waypoint. *)
Definition moveToNextWaypoint (policy : ExhaustedPolicy) (leg : t) : Error + t :=
  if hasNextWaypoint leg
  then inr (mk (waypointCollection leg) (currentIndex leg + 1) (routeString leg) (legType leg))
  else match policy with
       | NoOp => inr leg
       | FatalAssertion => inl (AssertionError "no next waypoint")
       end.

(** Sets [currentIndex = i] directly. *)
Definition skipToWaypointAtIndex (i : Z) (leg : t) : t :=
  mk (waypointCollection leg) i (routeString leg) (legType leg).

(** Releases the references to the waypoint data. *)
Definition destroy (leg : t) : t :=
  mk [] (currentIndex leg) (routeString leg) (legType leg).

End LegModel.

(** Modelled from the spec: [ModeController] and the [MCP_MODE] table of
    [modeControlConstants], a mode and a value for each of altitude,
    heading and speed.  The modes the spec does not detail are kept under
    their names. *)
Module ModeController.

Inductive AltitudeMode : Type := ALTITUDE_HOLD | ALTITUDE_VNAV | ALTITUDE_OTHER (name : string).
Inductive HeadingMode : Type := HEADING_HOLD | HEADING_LNAV | HEADING_OTHER (name : string).
Inductive SpeedMode : Type := SPEED_HOLD | SPEED_OTHER (name : string).

#[global] Instance AltitudeMode_eq_dec : EqDecision AltitudeMode.
Proof. solve_decision. Defined.
#[global] Instance HeadingMode_eq_dec : EqDecision HeadingMode.
Proof. solve_decision. Defined.
#[global] Instance SpeedMode_eq_dec : EqDecision SpeedMode.
Proof. solve_decision. Defined.

Record t : Type := mk {
  altitudeMode : AltitudeMode;
  altitude : Z;
  headingMode : HeadingMode;
  heading : Z;
  speedMode : SpeedMode;
  speed : Z
}.

(** [setModeAndValue(axis, mode, value)], one definition per axis: both
    fields of that axis, nothing of the others. *)
Definition setAltitudeModeAndValue (mode : AltitudeMode) (value : Z) (mc : t) : t :=
  mk mode value (headingMode mc) (heading mc) (speedMode mc) (speed mc).

Definition setHeadingModeAndValue (mode : HeadingMode) (value : Z) (mc : t) : t :=
  mk (altitudeMode mc) (altitude mc) mode value (speedMode mc) (speed mc).

Definition setSpeedModeAndValue (mode : SpeedMode) (value : Z) (mc : t) : t :=
  mk (altitudeMode mc) (altitude mc) (headingMode mc) (heading mc) mode value.

End ModeController.

(** The performance data of an aircraft type that the class reads,
    [ceiling] and [speed.cruise], laid out as the aircraft [Model] holds
    them once its data is parsed. *)
Module AircraftTypeDefinitionModel.

Record Speed : Type := mkSpeed {
  min : Z;
  max : Z;
  landing : Z;
  cruise : Z
}.

Record t : Type := mk {
  ceiling : Z;
  speed : Speed
}.

End AircraftTypeDefinitionModel.

(** Modelled from the spec: [routeStringFormatHelper], the parser of the
    route string codec.  It splits the route on [..]; it fails on an empty
    string and on a segment that is neither a bare name nor the three
    parts [entry.procedure.exit]. *)
Module RouteStringCodec.

Definition nonEmpty (part : string) : bool := negb (bool_decide (part = "")).

Definition segmentOk (segment : string) : bool :=
  match Str.splitOnDot segment "" with
  | [fix_] => nonEmpty fix_
  | [entry; procedure; exit] => nonEmpty entry && nonEmpty procedure && nonEmpty exit
  | _ => false
  end.

Definition parse (routeString : string) : option (list string) :=
  if bool_decide (routeString = "") then None
  else
    let segments := Str.splitOnDots routeString "" in
    if forallb segmentOk segments then Some segments else None.

Definition routeStringFormatHelper (route : JsValue) : Error + list string :=
  match route with
  | JsString routeString =>
      match parse routeString with
      | Some segments => inr segments
      | None => inl MalformedRouteError
      end
  | _ => inl MalformedRouteError
  end.

End RouteStringCodec.

(** ** The class [Fms] *)

Module Fms.
Section Fms.

Local Open Scope method_scope.

(** The navigation library is only handed on to the legs. *)
Context {NavigationLibrary : Type}.

(** [new LegModel(routeSegment, runway, flightPhase, navigationLibrary)]:
    the leg of a segment, or nothing when the navigation data does not
    know the segment (a lookup error). *)
Variable newLegModel :
  string -> string -> JsValue -> option NavigationLibrary -> option LegModel.t.

(** [new ModeController(typeDefinitionModel)]. *)
Variable newModeController : AircraftTypeDefinitionModel.t -> ModeController.t.

(** What a leg does when asked to move past its last waypoint. *)
Variable policy : LegModel.ExhaustedPolicy.

Record t : Type := mk {
  _navigationLibrary : option NavigationLibrary;
  _modeController : ModeController.t;
  _aircraftTypeDefinition : AircraftTypeDefinitionModel.t;
  _runwayName : string;
  legCollection : list LegModel.t;
  currentPhase : JsValue
}.

Definition setLegCollection (legs : list LegModel.t) (this : t) : t :=
  mk (_navigationLibrary this) (_modeController this) (_aircraftTypeDefinition this)
     (_runwayName this) legs (currentPhase this).

Definition setCurrentPhase (phase : JsValue) (this : t) : t :=
  mk (_navigationLibrary this) (_modeController this) (_aircraftTypeDefinition this)
     (_runwayName this) (legCollection this) phase.

Definition setModeController (mc : ModeController.t) (this : t) : t :=
  mk (_navigationLibrary this) mc (_aircraftTypeDefinition this)
     (_runwayName this) (legCollection this) (currentPhase this).

(** A leg is an object shared with the array that holds it; a call
    that changes the current leg writes it back to slot 0. *)
Definition writeCurrentLeg (leg : LegModel.t) : Method t unit :=
  do this <- getThis;
  setThis (setLegCollection (<[0%nat := leg]> (legCollection this)) this).

(** [get currentLeg]: [legCollection[0]]. *)
Definition currentLeg : Method t (option LegModel.t) :=
  do this <- getThis;
  ret (legCollection this !! 0%nat).

(** [get currentWaypoint]: [currentLeg.currentWaypoint]. *)
Definition currentWaypoint : Method t (option WaypointModel.t) :=
  do leg <- currentLeg;
  do leg <- deref "currentWaypoint" leg;
  ret (LegModel.currentWaypoint leg).

(** [get currentRoute]. *)
Definition currentRoute : Method t string :=
  do this <- getThis;
  let routeSegments := map LegModel.routeString (legCollection this) in
  ret (Str.join ".." routeSegments).

Definition getAltitude : Method t Z :=
  do this <- getThis;
  let altitude := AircraftTypeDefinitionModel.ceiling (_aircraftTypeDefinition this) in
  do waypoint <- currentWaypoint;
  do waypoint <- deref "altitudeRestriction" waypoint;
  let altitude :=
    if bool_decide (WaypointModel.altitudeRestriction waypoint <> -1)
    then WaypointModel.altitudeRestriction waypoint
    else altitude in
  let altitude :=
    if bool_decide (ModeController.altitudeMode (_modeController this) = ModeController.ALTITUDE_HOLD)
    then ModeController.altitude (_modeController this)
    else altitude in
  ret altitude.

Definition getHeading : Method t Z :=
  do this <- getThis;
  let heading := -999 in
  let heading :=
    if bool_decide (ModeController.headingMode (_modeController this) = ModeController.HEADING_HOLD)
    then ModeController.heading (_modeController this)
    else heading in
  ret heading.

Definition getSpeed : Method t Z :=
  do this <- getThis;
  let speed :=
    AircraftTypeDefinitionModel.cruise
      (AircraftTypeDefinitionModel.speed (_aircraftTypeDefinition this)) in
  do waypoint <- currentWaypoint;
  do waypoint <- deref "speedRestriction" waypoint;
  let speed :=
    if bool_decide (WaypointModel.speedRestriction waypoint <> -1)
    then WaypointModel.speedRestriction waypoint
    else speed in
  let speed :=
    if bool_decide (ModeController.speedMode (_modeController this) = ModeController.SPEED_HOLD)
    then ModeController.speed (_modeController this)
    else speed in
  ret speed.

Definition setAltitudeVnav : Method t unit :=
  do waypoint <- currentWaypoint;
  do waypoint <- deref "altitudeRestriction" waypoint;
  do this <- getThis;
  setThis (setModeController
             (ModeController.setAltitudeModeAndValue ModeController.ALTITUDE_VNAV
                (WaypointModel.altitudeRestriction waypoint) (_modeController this))
             this).

Definition setAltitudeHold (altitude : Z) : Method t unit :=
  do this <- getThis;
  setThis (setModeController
             (ModeController.setAltitudeModeAndValue ModeController.ALTITUDE_HOLD altitude
                (_modeController this))
             this).

Definition setHeadingLnav (heading : Z) : Method t unit :=
  do this <- getThis;
  setThis (setModeController
             (ModeController.setHeadingModeAndValue ModeController.HEADING_LNAV heading
                (_modeController this))
             this).

Definition setHeadingHold (heading : Z) : Method t unit :=
  do this <- getThis;
  setThis (setModeController
             (ModeController.setHeadingModeAndValue ModeController.HEADING_HOLD heading
                (_modeController this))
             this).

Definition setSpeedHold (speed : Z) : Method t unit :=
  do this <- getThis;
  setThis (setModeController
             (ModeController.setSpeedModeAndValue ModeController.SPEED_HOLD speed
                (_modeController this))
             this).

Definition addLegToBeginning (routeString : string) : Method t unit :=
  do this <- getThis;
  do legModel <- liftLookup
    (newLegModel routeString (_runwayName this) (currentPhase this) (_navigationLibrary this));
  setThis (setLegCollection (legModel :: legCollection this) this).

Definition hasNextWaypoint : Method t bool :=
  do leg <- currentLeg;
  do leg <- deref "hasNextWaypoint" leg;
  do this <- getThis;
  ret (LegModel.hasNextWaypoint leg || negb (Lodash._isNil (legCollection this !! 1%nat))).

Definition _moveToNextWaypointInLeg : Method t unit :=
  do leg <- currentLeg;
  do leg <- deref "moveToNextWaypoint" leg;
  do leg <- liftResult (LegModel.moveToNextWaypoint policy leg);
  writeCurrentLeg leg.

Definition _moveToNextLeg : Method t unit :=
  do leg <- currentLeg;
  do leg <- deref "destroy" leg;
  run writeCurrentLeg (LegModel.destroy leg);
  do this <- getThis;
  setThis (setLegCollection (tail (legCollection this)) this).

Definition nextWaypoint : Method t unit :=
  do leg <- currentLeg;
  do leg <- deref "hasNextWaypoint" leg;
  run (if negb (LegModel.hasNextWaypoint leg) then _moveToNextLeg else ret tt);
  _moveToNextWaypointInLeg.

Record LegAndWaypointIndex : Type := mkIndex {
  legIndex : nat;
  waypointIndex : Z
}.

(** The matcher [{ name: ... }] handed to [_.findIndex]. *)
Definition hasName (name : string) (waypoint : WaypointModel.t) : bool :=
  String.eqb (WaypointModel.name waypoint) name.

(** The [for] loop of [_findLegAndWaypointIndexForWaypointName], from
    [legIndex] on, over the legs not yet visited. *)
Fixpoint findFrom (legs : list LegModel.t) (legIndex : nat) (waypointName : string)
  : LegAndWaypointIndex :=
  match legs with
  | [] => mkIndex legIndex (-1)
  | legModel :: rest =>
      let waypointIndex :=
        Lodash._findIndex (LegModel.waypointCollection legModel)
          (hasName (Str.toLowerCase waypointName)) in
      if bool_decide (waypointIndex <> -1)
      then mkIndex legIndex waypointIndex
      else findFrom rest (S legIndex) waypointName
  end.

Definition _findLegAndWaypointIndexForWaypointName (waypointName : string)
  : Method t LegAndWaypointIndex :=
  do this <- getThis;
  ret (findFrom (legCollection this) 0%nat waypointName).

Definition skipToWaypoint (waypointName : string) : Method t unit :=
  do found <- _findLegAndWaypointIndexForWaypointName waypointName;
  do this <- getThis;
  run setThis (setLegCollection (Lodash._drop (legCollection this) (legIndex found)) this);
  do leg <- currentLeg;
  do leg <- deref "skipToWaypointAtIndex" leg;
  writeCurrentLeg (LegModel.skipToWaypointAtIndex (waypointIndex found) leg).

Definition getNextWaypointPosition : Method t (option (list Z)) :=
  do hasNext <- hasNextWaypoint;
  if negb hasNext then ret None
  else
    do leg <- currentLeg;
    do leg <- deref "nextWaypoint" leg;
    do waypoint <- deref "position" (LegModel.nextWaypoint leg);
    let waypointPosition := WaypointModel.position waypoint in
    do leg <- currentLeg;
    do leg <- deref "hasNextWaypoint" leg;
    if negb (LegModel.hasNextWaypoint leg)
    then
      do this <- getThis;
      do nextLeg <- deref "currentWaypoint" (legCollection this !! 1%nat);
      do waypoint <- deref "position" (LegModel.currentWaypoint nextLeg);
      ret (WaypointModel.position waypoint)
    else ret waypointPosition.

Definition _buildInitialLegCollection (aircraftInitProps : JsValue)
  : Method t (list LegModel.t) :=
  let route := getProp aircraftInitProps "route" in
  do routeStringSegments <- liftResult (RouteStringCodec.routeStringFormatHelper route);
  do this <- getThis;
  let legsForRoute :=
    mapM
      (fun routeSegment =>
         newLegModel routeSegment (_runwayName this) (currentPhase this) (_navigationLibrary this))
      routeStringSegments in
  liftLookup legsForRoute.

Definition init (aircraftInitProps : JsValue) : Method t unit :=
  do this <- getThis;
  run setThis (setCurrentPhase (getProp aircraftInitProps "category") this);
  do legs <- _buildInitialLegCollection aircraftInitProps;
  do this <- getThis;
  setThis (setLegCollection legs this).

Definition destroy : Method t unit :=
  do this <- getThis;
  setThis (mk None (_modeController this) (_aircraftTypeDefinition this) "" [] (JsString "")).

(** [new Fms(...)]: the instance, or the error that aborted it. *)
Definition constructor (aircraftInitProps : JsValue) (initialRunwayAssignment : string)
    (typeDefinitionModel : AircraftTypeDefinitionModel.t)
    (navigationLibrary : NavigationLibrary) : Error + t :=
  if negb (Lodash._isObject aircraftInitProps) || Lodash._isEmpty aircraftInitProps
  then inl invalidInitProps
  else
    let this :=
      mk (Some navigationLibrary) (newModeController typeDefinitionModel) typeDefinitionModel
         initialRunwayAssignment [] (JsString "") in
    match init aircraftInitProps this with
    | Returned _ this' => inr this'
    | Threw e _ => inl e
    end.

End Fms.
End Fms.

Arguments Fms.t NavigationLibrary : clear implicits.

(** ** A route to run the methods on *)

Module Route.

Definition fix_ (name : string) (x y : Z) : WaypointModel.t :=
  WaypointModel.mk name (Some [x; y]) (-1) (-1) false.

Definition restricted (name : string) (x y altitude speed : Z) : WaypointModel.t :=
  WaypointModel.mk name (Some [x; y]) altitude speed false.

Definition cowby := fix_ "cowby" 40 12.
Definition bikkr := fix_ "bikkr" 31 9.
Definition dag := restricted "dag" 25 7 11000 280.
Definition misen := restricted "misen" 18 5 9000 250.
Definition clarr := restricted "clarr" 11 3 8000 230.
Definition kepec := restricted "kepec" 6 1 6000 210.

Definition direct (waypoint : WaypointModel.t) : LegModel.t :=
  LegModel.mk [waypoint] 0 (WaypointModel.name waypoint) LegModel.DirectFix.

Definition kepec3 : LegModel.t :=
  LegModel.mk [dag; misen; clarr; kepec] 0 "dag.kepec3.klas" LegModel.Procedure.

Definition b737 : AircraftTypeDefinitionModel.t :=
  AircraftTypeDefinitionModel.mk 41000 (AircraftTypeDefinitionModel.mkSpeed 110 340 125 460).

Definition vnav : ModeController.t :=
  ModeController.mk ModeController.ALTITUDE_VNAV (-1) ModeController.HEADING_LNAV (-1)
    (ModeController.SPEED_OTHER "VNAV") (-1).

Definition holding (altitude heading : Z) : ModeController.t :=
  ModeController.mk ModeController.ALTITUDE_HOLD altitude ModeController.HEADING_HOLD heading
    (ModeController.SPEED_OTHER "VNAV") (-1).

(** An arrival on runway 19L with the given panel and legs. *)
Definition arrival (mc : ModeController.t) (legs : list LegModel.t) : Fms.t unit :=
  Fms.mk (Some tt) mc b737 "19l" legs (JsString "arrival").

(** A navigation library that knows the fixes and the procedure above. *)
Definition newLegModel (routeSegment runway : string) (phase : JsValue)
    (navigationLibrary : option unit) : option LegModel.t :=
  if String.eqb routeSegment "cowby" then Some (direct cowby)
  else if String.eqb routeSegment "bikkr" then Some (direct bikkr)
  else if String.eqb routeSegment "dag.kepec3.klas" then Some kepec3
  else None.

Definition newModeController (typeDefinitionModel : AircraftTypeDefinitionModel.t)
  : ModeController.t := vnav.

Definition initProps (route : string) : JsValue :=
  JsObject [("category", JsString "arrival"); ("route", JsString route)].

(** The route [cowby..bikkr..dag.kepec3.klas] as filed, and shorter ones. *)
Definition filed : Fms.t unit := arrival vnav [direct cowby; direct bikkr; kepec3].
Definition twoFixes : Fms.t unit := arrival vnav [direct cowby; direct bikkr].
Definition lastFix : Fms.t unit := arrival vnav [direct cowby].

End Route.

(** ** Vocabulary of the statements *)

(** Names compared without regard to case. *)
Definition sameNameIgnoringCase (a b : string) : Prop :=
  Str.toLowerCase a = Str.toLowerCase b.

(** The waypoints of the legs carry their names in lower case. *)
Definition namesInLowerCase (legs : list LegModel.t) : Prop :=
  Forall
    (fun leg =>
       Forall
         (fun waypoint =>
            Str.toLowerCase (WaypointModel.name waypoint) = WaypointModel.name waypoint)
         (LegModel.waypointCollection leg))
    legs.

(** The leg holds a waypoint of that name, whatever the case. *)
Definition legContains (waypointName : string) (leg : LegModel.t) : Prop :=
  Exists
    (fun waypoint => sameNameIgnoringCase (WaypointModel.name waypoint) waypointName)
    (LegModel.waypointCollection leg).

Definition routeContains (waypointName : string) (legs : list LegModel.t) : Prop :=
  Exists (legContains waypointName) legs.

(** What the search itself tests for: a waypoint whose stored name is
    the argument in lower case. *)
Definition matches (waypointName : string) (leg : LegModel.t) : Prop :=
  Exists (fun waypoint => Fms.hasName (Str.toLowerCase waypointName) waypoint = true)
    (LegModel.waypointCollection leg).

(** ** The class [Model] of an aircraft type *)

(** Truthiness of a value, as [if (value)] tests it. *)
Definition truthy (value : JsValue) : bool :=
  match value with
  | JsUndefined | JsNull => false
  | JsBoolean b => b
  | JsNumber n => negb (n =? 0)
  | JsString s => negb (String.eqb s "")
  | JsArray _ | JsObject _ => true
  end.

(** [value == null]: no property can be read from it. *)
Definition nullish (value : JsValue) : bool :=
  match value with
  | JsUndefined | JsNull => true
  | _ => false
  end.

Module Model.

(** One call of [zlsa.atc.loadAsset]. *)
Record AssetRequest : Type := mkRequest {
  url : JsValue;
  immediate : bool
}.

Inductive ConsoleCall : Type := ConsoleLog | ConsoleWarn | ConsoleError.

(** The instance.  [init] assigns neither [ceiling] nor [_url]: they are
    [undefined] until [parse] and [load] assign them. *)
Record t : Type := mk {
  loading : bool;
  loaded : bool;
  priorityLoad : bool;
  name : JsValue;
  icao : JsValue;
  engines : JsValue;
  weightclass : JsValue;
  category : JsValue;
  ceiling : JsValue;
  rate : JsValue;
  runway : JsValue;
  speed : JsValue;
  _pendingAircraft : list JsValue;
  _url : JsValue
}.

Definition setLoading (v : bool) (m : t) : t :=
  mk v (loaded m) (priorityLoad m) (name m) (icao m) (engines m) (weightclass m) (category m)
    (ceiling m) (rate m) (runway m) (speed m) (_pendingAircraft m) (_url m).

Definition setLoaded (v : bool) (m : t) : t :=
  mk (loading m) v (priorityLoad m) (name m) (icao m) (engines m) (weightclass m) (category m)
    (ceiling m) (rate m) (runway m) (speed m) (_pendingAircraft m) (_url m).

Definition setPriorityLoad (v : bool) (m : t) : t :=
  mk (loading m) (loaded m) v (name m) (icao m) (engines m) (weightclass m) (category m)
    (ceiling m) (rate m) (runway m) (speed m) (_pendingAircraft m) (_url m).

Definition setName (v : JsValue) (m : t) : t :=
  mk (loading m) (loaded m) (priorityLoad m) v (icao m) (engines m) (weightclass m) (category m)
    (ceiling m) (rate m) (runway m) (speed m) (_pendingAircraft m) (_url m).

Definition setIcao (v : JsValue) (m : t) : t :=
  mk (loading m) (loaded m) (priorityLoad m) (name m) v (engines m) (weightclass m) (category m)
    (ceiling m) (rate m) (runway m) (speed m) (_pendingAircraft m) (_url m).

Definition setEngines (v : JsValue) (m : t) : t :=
  mk (loading m) (loaded m) (priorityLoad m) (name m) (icao m) v (weightclass m) (category m)
    (ceiling m) (rate m) (runway m) (speed m) (_pendingAircraft m) (_url m).

Definition setWeightclass (v : JsValue) (m : t) : t :=
  mk (loading m) (loaded m) (priorityLoad m) (name m) (icao m) (engines m) v (category m)
    (ceiling m) (rate m) (runway m) (speed m) (_pendingAircraft m) (_url m).

Definition setCategory (v : JsValue) (m : t) : t :=
  mk (loading m) (loaded m) (priorityLoad m) (name m) (icao m) (engines m) (weightclass m) v
    (ceiling m) (rate m) (runway m) (speed m) (_pendingAircraft m) (_url m).

Definition setCeiling (v : JsValue) (m : t) : t :=
  mk (loading m) (loaded m) (priorityLoad m) (name m) (icao m) (engines m) (weightclass m)
    (category m) v (rate m) (runway m) (speed m) (_pendingAircraft m) (_url m).

Definition setRate (v : JsValue) (m : t) : t :=
  mk (loading m) (loaded m) (priorityLoad m) (name m) (icao m) (engines m) (weightclass m)
    (category m) (ceiling m) v (runway m) (speed m) (_pendingAircraft m) (_url m).

Definition setRunway (v : JsValue) (m : t) : t :=
  mk (loading m) (loaded m) (priorityLoad m) (name m) (icao m) (engines m) (weightclass m)
    (category m) (ceiling m) (rate m) v (speed m) (_pendingAircraft m) (_url m).

Definition setSpeed (v : JsValue) (m : t) : t :=
  mk (loading m) (loaded m) (priorityLoad m) (name m) (icao m) (engines m) (weightclass m)
    (category m) (ceiling m) (rate m) (runway m) v (_pendingAircraft m) (_url m).

Definition setPendingAircraft (v : list JsValue) (m : t) : t :=
  mk (loading m) (loaded m) (priorityLoad m) (name m) (icao m) (engines m) (weightclass m)
    (category m) (ceiling m) (rate m) (runway m) (speed m) v (_url m).

Definition setUrl (v : JsValue) (m : t) : t :=
  mk (loading m) (loaded m) (priorityLoad m) (name m) (icao m) (engines m) (weightclass m)
    (category m) (ceiling m) (rate m) (runway m) (speed m) (_pendingAircraft m) v.

Section Methods.

(** The class [AircraftInstanceModel] is only called: its constructor,
    which receives the options with [options.model] set to the model, and
    [getCallsign] either return or throw. *)
Context {Aircraft : Type}.
Variable newAircraftInstanceModel : JsValue -> t -> Error + Aircraft.
Variable getCallsign : Aircraft -> Error + string.

(** What the methods of a model read and write: the instance, the list
    [prop.aircraft.list] of the aircraft built so far, the asset requests
    sent and the calls to the console, oldest first. *)
Record World : Type := mkWorld {
  this : t;
  aircraftList : list Aircraft;
  assetRequests : list AssetRequest;
  console : list ConsoleCall
}.

Local Open Scope method_scope.

Definition updateThis (f : t -> t) : Method World unit :=
  fun world =>
    Returned tt (mkWorld (f (this world)) (aircraftList world) (assetRequests world) (console world)).

Definition loadAsset (request : AssetRequest) : Method World unit :=
  fun world =>
    Returned tt
      (mkWorld (this world) (aircraftList world) (assetRequests world ++ [request])%list
         (console world)).

Definition consoleCall (call : ConsoleCall) : Method World unit :=
  fun world =>
    Returned tt
      (mkWorld (this world) (aircraftList world) (assetRequests world) (console world ++ [call])%list).

Definition pushAircraft (aircraft : Aircraft) : Method World unit :=
  fun world =>
    Returned tt
      (mkWorld (this world) (aircraftList world ++ [aircraft])%list (assetRequests world)
         (console world)).

(** [if (value) this.field = value;] *)
Definition assignIf (value : JsValue) (set : JsValue -> t -> t) (m : t) : t :=
  if truthy value then set value m else m.

(** What a field holds after such an assignment. *)
Definition pick (value old : JsValue) : JsValue :=
  if truthy value then value else old.

(** The assignments of [parse], one [if] after the other. *)
Definition parseFields (data : JsValue) (m : t) : t :=
  let m := assignIf (getProp data "name") setName m in
  let m := assignIf (getProp data "icao") setIcao m in
  let m := assignIf (getProp data "engines") setEngines m in
  let m := assignIf (getProp data "weightclass") setWeightclass m in
  let m := assignIf (getProp data "category") setCategory m in
  let m := assignIf (getProp data "ceiling") setCeiling m in
  let m := assignIf (getProp data "runway") setRunway m in
  let m := assignIf (getProp data "speed") setSpeed m in
  let m := assignIf (getProp data "rate") setRate m in
  m.

(** [parse(data)]: reading [data.name] throws when [data] is [null] or
    [undefined], before anything is assigned. *)
Definition parse (data : JsValue) : Method World unit :=
  match data with
  | JsUndefined => throw (TypeError "Cannot read property 'name' of undefined")
  | JsNull => throw (TypeError "Cannot read property 'name' of null")
  | _ => updateThis (parseFields data)
  end.

(** [load(url)]: the request is sent; its answer comes later, as
    [loadDone] or [loadFail]. *)
Definition load (url_ : JsValue) : Method World unit :=
  run updateThis (setUrl url_);
  loadAsset (mkRequest url_ false).

Definition zero : JsValue := JsNumber 0.

(** The state [init] assigns before it parses the options. *)
Definition initial (m : t) : t :=
  mk true false false JsNull JsNull JsNull JsNull JsNull (ceiling m)
    (JsObject [("turn", zero); ("climb", zero); ("descent", zero); ("accelerate", zero);
               ("decelerate", zero)])
    (JsObject [("takeoff", zero); ("landing", zero)])
    (JsObject [("min", zero); ("max", zero); ("landing", zero); ("cruise", zero)])
    [] (_url m).

(** [init(options = {})]. *)
Definition init (options : JsValue) : Method World unit :=
  let options := match options with JsUndefined => JsObject [] | _ => options end in
  run updateThis initial;
  run parse options;
  if truthy (getProp options "url") then load (getProp options "url") else ret tt.

(** The object [init] is called on: nothing assigned yet. *)
Definition blank : t :=
  mk false false false JsUndefined JsUndefined JsUndefined JsUndefined JsUndefined JsUndefined
    JsUndefined JsUndefined JsUndefined [] JsUndefined.

Definition emptyWorld : World := mkWorld blank [] [] [].

(** [_generateAircraft(options)]: [options.model = this] needs an object
    to write to; the constructor may throw before the aircraft is pushed,
    [getCallsign] after it. *)
Definition _generateAircraft (options : JsValue) : Method World bool :=
  if Lodash._isObject options
  then
    do world <- getThis;
    do aircraft <- liftResult (newAircraftInstanceModel options (this world));
    run pushAircraft aircraft;
    do callsign <- liftResult (getCallsign aircraft);
    run consoleCall ConsoleLog;
    ret true
  else throw (TypeError "Cannot set property 'model'").

(** [$.each(this._pendingAircraft, ...)]. *)
Fixpoint eachPending (pending : list JsValue) : Method World unit :=
  match pending with
  | [] => ret tt
  | options :: rest =>
      run _generateAircraft options;
      eachPending rest
  end.

Definition _generatePendingAircraft : Method World unit :=
  do world <- getThis;
  run eachPending (_pendingAircraft (this world));
  updateThis (setPendingAircraft []).

Definition generateAircraft (options : JsValue) : Method World bool :=
  do world <- getThis;
  if negb (loaded (this world))
  then
    if loading (this world)
    then
      run updateThis (fun m => setPendingAircraft (_pendingAircraft m ++ [options])%list m);
      do world <- getThis;
      run (if negb (priorityLoad (this world))
           then
             run loadAsset (mkRequest (_url (this world)) true);
             updateThis (setPriorityLoad true)
           else ret tt);
      ret true
    else
      match options with
      | JsUndefined => throw (TypeError "Cannot read property 'icao' of undefined")
      | JsNull => throw (TypeError "Cannot read property 'icao' of null")
      | _ =>
          run consoleCall ConsoleWarn;
          ret false
      end
  else _generateAircraft options.

(** The [done] callback of [load]. *)
Definition loadDone (data : JsValue) : Method World unit :=
  run parse data;
  run updateThis (setLoading false);
  run updateThis (setLoaded true);
  _generatePendingAircraft.

(** The [fail] callback of [load]. *)
Definition loadFail : Method World unit :=
  run updateThis (setLoading false);
  run updateThis (setPendingAircraft []);
  consoleCall ConsoleError.

(** Calls of [generateAircraft] one after the other; the answers are
    collected. *)
Fixpoint generateAll (requests : list JsValue) : Method World (list bool) :=
  match requests with
  | [] => ret []
  | options :: rest =>
      do answer <- generateAircraft options;
      do answers <- generateAll rest;
      ret (answer :: answers)
  end.

End Methods.

Arguments World Aircraft : clear implicits.

End Model.

(** ** An aircraft type to run the model on *)

Module Fleet.

Definition b738 : JsValue :=
  JsObject
    [("name", JsString "Boeing 737-800");
     ("icao", JsString "b738");
     ("engines", JsObject [("number", JsNumber 2); ("type", JsString "J")]);
     ("weightclass", JsString "L");
     ("ceiling", JsNumber 41000);
     ("runway", JsObject [("takeoff", JsNumber 2); ("landing", JsNumber 1)]);
     ("speed",
      JsObject [("min", JsNumber 110); ("landing", JsNumber 125); ("cruise", JsNumber 460);
                ("max", JsNumber 492)])].

(** Data that gives a new name and a ceiling of 0. *)
Definition grounded : JsValue :=
  JsObject [("name", JsString "Boeing 737-800 (stored)"); ("ceiling", JsNumber 0)].

Definition byUrl : JsValue :=
  JsObject [("icao", JsString "b738"); ("url", JsString "assets/aircraft/b738.json")].

Definition flight (callsign : string) : JsValue :=
  JsObject [("category", JsString "arrival"); ("icao", JsString "b738");
            ("callsign", JsString callsign)].

(** An aircraft is stood for by the options it was built from; its
    callsign is the one the options carry. *)
Definition newAircraft (options : JsValue) (model : Model.t) : Error + JsValue :=
  inr options.

Definition getCallsign (aircraft : JsValue) : Error + string :=
  match getProp aircraft "callsign" with
  | JsString callsign => inr callsign
  | _ => inr ""
  end.

(** The world after [new Model(options)] on a page without aircraft. *)
Definition created (options : JsValue) : Model.World JsValue :=
  match Model.init options Model.emptyWorld with
  | Returned _ world => world
  | Threw _ world => world
  end.

(** A model that is loading, with two aircraft asked for. *)
Definition waiting : Model.World JsValue :=
  Model.mkWorld
    (Model.mk true false true JsNull (JsString "b738") JsNull JsNull JsNull JsUndefined
       (JsObject [("turn", JsNumber 0); ("climb", JsNumber 0); ("descent", JsNumber 0);
                  ("accelerate", JsNumber 0); ("decelerate", JsNumber 0)])
       (JsObject [("takeoff", JsNumber 0); ("landing", JsNumber 0)])
       (JsObject [("min", JsNumber 0); ("max", JsNumber 0); ("landing", JsNumber 0);
                  ("cruise", JsNumber 0)])
       [flight "AAL12"; flight "UAL34"] (JsString "assets/aircraft/b738.json"))
    []
    [Model.mkRequest (JsString "assets/aircraft/b738.json") false;
     Model.mkRequest (JsString "assets/aircraft/b738.json") true]
    [].

(** A model whose data has arrived, with two aircraft built. *)
Definition loaded : Model.World JsValue :=
  Model.mkWorld
    (Model.mk false true true (JsString "Boeing 737-800") (JsString "b738")
       (JsObject [("number", JsNumber 2); ("type", JsString "J")]) (JsString "L") JsNull
       (JsNumber 41000)
       (JsObject [("turn", JsNumber 0); ("climb", JsNumber 0); ("descent", JsNumber 0);
                  ("accelerate", JsNumber 0); ("decelerate", JsNumber 0)])
       (JsObject [("takeoff", JsNumber 2); ("landing", JsNumber 1)])
       (JsObject [("min", JsNumber 110); ("landing", JsNumber 125); ("cruise", JsNumber 460);
                  ("max", JsNumber 492)])
       [] (JsString "assets/aircraft/b738.json"))
    [flight "AAL12"; flight "UAL34"]
    [Model.mkRequest (JsString "assets/aircraft/b738.json") false;
     Model.mkRequest (JsString "assets/aircraft/b738.json") true]
    [Model.ConsoleLog; Model.ConsoleLog].

End Fleet.

(** ** The legs of a route string *)

(** Modelled from the spec: the navigation data and the constructor of
    [LegModel], neither of which the class has more of than the call.
    The data answers a fix or procedure name, in the context of a runway
    and a phase, with the waypoints in flight order, or with nothing (a
    lookup error).  A leg starts with its cursor at 0; its route string
    is made from its type and the names of its waypoints: the bare fix
    name for a direct fix, [entryFix.procedureName.exitFix] for a
    procedure.  The spec gives no text for a hold-fix marker and no
    rendering of a hold leg: a segment without a dot is read as a fix
    name. *)
Module LegConstructor.


Definition entryName (waypoints : list WaypointModel.t) : string :=
  match waypoints with
  | waypoint :: _ => WaypointModel.name waypoint
  | [] => ""
  end.

Definition exitName (waypoints : list WaypointModel.t) : string :=
  match last waypoints with
  | Some waypoint => WaypointModel.name waypoint
  | None => ""
  end.

Definition routeString (legType : LegModel.LegType) (procedureName : string)
    (waypoints : list WaypointModel.t) : string :=
  match legType with
  | LegModel.Procedure => entryName waypoints ++ "." ++ procedureName ++ "." ++ exitName waypoints
  | _ => entryName waypoints
  end.

Definition build (legType : LegModel.LegType) (procedureName : string)
    (waypoints : list WaypointModel.t) : LegModel.t :=
  LegModel.mk waypoints 0 (routeString legType procedureName waypoints) legType.



End LegConstructor.

(** Navigation data for the fixes and the arrival of the route above;
    names are looked up whatever their case. *)
Module Charts.



End Charts.

(** ** More vocabulary: walks and cursors *)

(** The state of the model when the [done] callback reaches the queue:
    the data parsed, not loading any more, loaded. *)
Definition arrived (data : JsValue) (m : Model.t) : Model.t :=
  Model.setLoaded true (Model.setLoading false (Model.parseFields data m)).

(** The options are an object for which, on a model in state [m], the
    aircraft constructor returns [aircraft] and [getCallsign] returns. *)
Definition builds {Aircraft : Type}
    (newAircraftInstanceModel : JsValue -> Model.t -> Error + Aircraft)
    (getCallsign : Aircraft -> Error + string)
    (m : Model.t) (options : JsValue) (aircraft : Aircraft) : Prop :=
  Lodash._isObject options = true
  /\ newAircraftInstanceModel options m = inr aircraft
  /\ exists callsign, getCallsign aircraft = inr callsign.

(** [nextWaypoint()] called [n] times in a row. *)
Fixpoint nextWaypointTimes {NavigationLibrary : Type} (policy : LegModel.ExhaustedPolicy)
    (n : nat) : Method (Fms.t NavigationLibrary) unit :=
  match n with
  | O => ret tt
  | S n' => bind (Fms.nextWaypoint policy) (fun _ => nextWaypointTimes policy n')
  end.

(** The cursor of a leg points at one of its waypoints. *)
Definition cursorValid (leg : LegModel.t) : Prop :=
  0 <= LegModel.currentIndex leg < Z.of_nat (length (LegModel.waypointCollection leg)).

(** * Properties *)

(** ** Strings: splitting and joining *)

Lemma append_cons (c : ascii) (s1 s2 : string) : String c s1 ++ s2 = String c (s1 ++ s2).
Proof. reflexivity. Qed.

Lemma append_nil_r (s : string) : s ++ "" = s.
Proof. induction s as [|c s IH]; [reflexivity | by rewrite append_cons, IH]. Qed.

Lemma append_assoc (s1 s2 s3 : string) : (s1 ++ s2) ++ s3 = s1 ++ (s2 ++ s3).
Proof. induction s1 as [|c s1 IH]; [reflexivity | by rewrite !append_cons, IH]. Qed.

Lemma isDot_eq (c : ascii) : Str.isDot c = true -> c = "."%char.
Proof. unfold Str.isDot. apply Ascii.eqb_eq. Qed.

Lemma splitOnDots_not_nil (s current : string) : Str.splitOnDots s current <> [].
Proof.
  revert current. induction s as [|c rest IH]; intros current; simpl; [done |].
  destruct rest as [|c' rest']; [apply IH |].
  destruct (Str.isDot c && Str.isDot c')%bool; [done | apply IH].
Qed.

Lemma join_cons (separator x : string) (parts : list string) :
  parts <> [] -> Str.join separator (x :: parts) = x ++ separator ++ Str.join separator parts.
Proof. destruct parts; [done | reflexivity]. Qed.

(** Joining what [split('..')] produced gives the text back, for every
    text: the segment being read followed by what is left to read. *)
Lemma join_splitOnDots (s current : string) :
  Str.join ".." (Str.splitOnDots s current) = current ++ s.
Proof.
  remember (String.length s) as n eqn:Hn.
  revert s current Hn.
  induction (lt_wf n) as [n _ IH]; intros s current ->.
  destruct s as [|c [|c' rest']].
  - simpl. by rewrite append_nil_r.
  - reflexivity.
  - simpl Str.splitOnDots. destruct (Str.isDot c && Str.isDot c')%bool eqn:Hdots.
    + apply andb_prop in Hdots as [->%isDot_eq ->%isDot_eq].
      rewrite join_cons by apply splitOnDots_not_nil.
      rewrite (IH (String.length rest')) with (current := "") (s := rest');
        [reflexivity | simpl; lia | reflexivity].
    + change (Str.join ".." (Str.splitOnDots (String c' rest') (current ++ String c ""))
              = current ++ String c (String c' rest')).
      rewrite (IH (String.length (String c' rest'))) with (s := String c' rest');
        [| simpl; lia | reflexivity].
      by rewrite append_assoc.
Qed.

Lemma join_split_roundtrip (s : string) : Str.join ".." (Str.splitOnDots s "") = s.
Proof. apply join_splitOnDots. Qed.

Example toLowerCase_bikkr : Str.toLowerCase "BiKKr3" = "bikkr3".
Proof. reflexivity. Qed.

Example split_route :
  Str.splitOnDots "cowby..bikkr..dag.kepec3.klas" "" = ["cowby"; "bikkr"; "dag.kepec3.klas"].
Proof. reflexivity. Qed.

Example split_procedure : Str.splitOnDot "dag.kepec3.klas" "" = ["dag"; "kepec3"; "klas"].
Proof. reflexivity. Qed.

Example parse_examples :
  RouteStringCodec.parse "cowby..bikkr..dag.kepec3.klas" = Some ["cowby"; "bikkr"; "dag.kepec3.klas"]
  /\ RouteStringCodec.parse "cowby" = Some ["cowby"]
  /\ RouteStringCodec.parse "dag.kepec3.klas" = Some ["dag.kepec3.klas"]
  /\ RouteStringCodec.parse "" = None
  /\ RouteStringCodec.parse "cowby...bikkr" = None
  /\ RouteStringCodec.parse "cowby.bikkr" = None.
Proof. repeat split; reflexivity. Qed.

(** ** Legs *)

Lemma entry_Some (leg : LegModel.t) (i : Z) (waypoint : WaypointModel.t) :
  LegModel.entry leg i = Some waypoint <->
  0 <= i /\ LegModel.waypointCollection leg !! Z.to_nat i = Some waypoint.
Proof.
  unfold LegModel.entry. destruct (Z.ltb_spec i 0); split.
  - done.
  - intros [? _]; lia.
  - intros; split; [lia | done].
  - by intros [_ ?].
Qed.

Lemma hasNextWaypoint_true (leg : LegModel.t) :
  LegModel.hasNextWaypoint leg = true <->
  0 <= LegModel.currentIndex leg + 1 < Z.of_nat (length (LegModel.waypointCollection leg)).
Proof. unfold LegModel.hasNextWaypoint. rewrite andb_true_iff, Z.leb_le, Z.ltb_lt. done. Qed.

Lemma hasNextWaypoint_nextWaypoint (leg : LegModel.t) :
  LegModel.hasNextWaypoint leg = true <-> is_Some (LegModel.nextWaypoint leg).
Proof.
  rewrite hasNextWaypoint_true. unfold LegModel.nextWaypoint, LegModel.entry.
  destruct (Z.ltb_spec (LegModel.currentIndex leg + 1) 0).
  - split; [lia | by intros [? ?]].
  - rewrite lookup_lt_is_Some. lia.
Qed.

Lemma nextWaypoint_exhausted (leg : LegModel.t) :
  LegModel.hasNextWaypoint leg = false -> LegModel.nextWaypoint leg = None.
Proof.
  intros Hno. destruct (LegModel.nextWaypoint leg) eqn:Hnext; [| done].
  assert (LegModel.hasNextWaypoint leg = true) by (apply hasNextWaypoint_nextWaypoint; eauto).
  congruence.
Qed.

(** ** Reading the state *)

(** Unfolds a method call down to the monad's primitives. *)
Ltac run_method :=
  unfold Fms.getAltitude, Fms.getHeading, Fms.getSpeed, Fms.hasNextWaypoint,
    Fms.getNextWaypointPosition, Fms.nextWaypoint, Fms._moveToNextLeg,
    Fms._moveToNextWaypointInLeg, Fms.skipToWaypoint,
    Fms._findLegAndWaypointIndexForWaypointName, Fms.currentRoute,
    Fms.currentWaypoint, Fms.currentLeg, Fms.writeCurrentLeg,
    deref, liftResult, liftLookup, bind, ret, throw, getThis, setThis;
  cbn.

Section Reading.

Context {NavigationLibrary : Type}.
Implicit Types (fms : Fms.t NavigationLibrary) (leg : LegModel.t).
Implicit Types (waypoint : WaypointModel.t).

Lemma currentWaypoint_returns fms leg :
  Fms.legCollection fms !! 0%nat = Some leg ->
  Fms.currentWaypoint fms = Returned (LegModel.currentWaypoint leg) fms.
Proof. intros Hleg. run_method. by rewrite Hleg. Qed.

Lemma currentWaypoint_no_leg fms :
  Fms.legCollection fms = [] ->
  Fms.currentWaypoint fms = Threw (undefinedProperty "currentWaypoint") fms.
Proof. intros Hnil. run_method. by rewrite Hnil. Qed.

(** Without a current leg the altitude cannot be read, in any mode. *)
Lemma getAltitude_no_leg fms :
  Fms.legCollection fms = [] ->
  Fms.getAltitude fms = Threw (undefinedProperty "currentWaypoint") fms.
Proof. intros Hnil. run_method. by rewrite Hnil. Qed.

(** The speed follows the same cascade as the altitude. *)
Lemma getSpeed_returns fms leg waypoint :
  Fms.legCollection fms !! 0%nat = Some leg ->
  LegModel.currentWaypoint leg = Some waypoint ->
  Fms.getSpeed fms =
  Returned
    (if bool_decide (ModeController.speedMode (Fms._modeController fms) = ModeController.SPEED_HOLD)
     then ModeController.speed (Fms._modeController fms)
     else if bool_decide (WaypointModel.speedRestriction waypoint <> -1)
          then WaypointModel.speedRestriction waypoint
          else AircraftTypeDefinitionModel.cruise
                 (AircraftTypeDefinitionModel.speed (Fms._aircraftTypeDefinition fms)))
    fms.
Proof. intros Hleg Hwaypoint. run_method. rewrite Hleg. cbn. by rewrite Hwaypoint. Qed.

(** Holding a heading is what makes [getHeading] leave its sentinel. *)
Lemma setHeadingHold_getHeading fms (heading : Z) :
  Fms.setHeadingHold heading fms =
  Returned tt
    (Fms.setModeController
       (ModeController.setHeadingModeAndValue ModeController.HEADING_HOLD heading
          (Fms._modeController fms))
       fms)
  /\ forall fms', Fms.setHeadingHold heading fms = Returned tt fms' ->
       Fms.getHeading fms' = Returned heading fms'.
Proof. split; [reflexivity |]. by intros fms' [= <-]. Qed.

Lemma setHeadingLnav_getHeading fms (heading : Z) fms' :
  Fms.setHeadingLnav heading fms = Returned tt fms' ->
  Fms.getHeading fms' = Returned (-999) fms'.
Proof. by intros [= <-]. Qed.

End Reading.

(** C7: [getHeading] returns the heading held by the mode controller
    when the heading mode is HOLD, and the sentinel -999 in every other
    heading mode, LNAV included; it never throws and writes nothing. *)
Theorem getHeading_hold_or_sentinel {NavigationLibrary : Type} (fms : Fms.t NavigationLibrary) :
  Fms.getHeading fms =
  Returned
    (match ModeController.headingMode (Fms._modeController fms) with
     | ModeController.HEADING_HOLD => ModeController.heading (Fms._modeController fms)
     | ModeController.HEADING_LNAV => -999
     | ModeController.HEADING_OTHER _ => -999
     end)
    fms.
Proof.
  run_method.
  by destruct (ModeController.headingMode (Fms._modeController fms)).
Qed.

(** C3: with a current waypoint, [getAltitude] returns the altitude held
    by the mode controller in HOLD mode whatever the restriction, else
    the restriction of the current waypoint when it is not -1, else the
    ceiling of the aircraft type.  With ceiling 41000, restriction 11000
    and a hold at 9000: HOLD gives 9000, VNAV gives 11000, and VNAV
    without a restriction gives 41000. *)
Theorem getAltitude_precedence {NavigationLibrary : Type} (fms : Fms.t NavigationLibrary)
    (leg : LegModel.t) (waypoint : WaypointModel.t) :
  Fms.legCollection fms !! 0%nat = Some leg ->
  LegModel.currentWaypoint leg = Some waypoint ->
  let mc := Fms._modeController fms in
  let restriction := WaypointModel.altitudeRestriction waypoint in
  let ceiling := AircraftTypeDefinitionModel.ceiling (Fms._aircraftTypeDefinition fms) in
  (ModeController.altitudeMode mc = ModeController.ALTITUDE_HOLD ->
   Fms.getAltitude fms = Returned (ModeController.altitude mc) fms)
  /\ (ModeController.altitudeMode mc <> ModeController.ALTITUDE_HOLD -> restriction <> -1 ->
      Fms.getAltitude fms = Returned restriction fms)
  /\ (ModeController.altitudeMode mc <> ModeController.ALTITUDE_HOLD -> restriction = -1 ->
      Fms.getAltitude fms = Returned ceiling fms)
  /\ (ceiling = 41000 -> restriction = 11000 -> ModeController.altitude mc = 9000 ->
      (ModeController.altitudeMode mc = ModeController.ALTITUDE_HOLD ->
       Fms.getAltitude fms = Returned 9000 fms)
      /\ (ModeController.altitudeMode mc = ModeController.ALTITUDE_VNAV ->
          Fms.getAltitude fms = Returned 11000 fms))
  /\ (ceiling = 41000 -> restriction = -1 ->
      ModeController.altitudeMode mc = ModeController.ALTITUDE_VNAV ->
      Fms.getAltitude fms = Returned 41000 fms).
Proof.
  intros Hleg Hwaypoint mc restriction ceiling.
  assert (Hrun : Fms.getAltitude fms =
    Returned
      (if bool_decide (ModeController.altitudeMode mc = ModeController.ALTITUDE_HOLD)
       then ModeController.altitude mc
       else if bool_decide (restriction <> -1) then restriction else ceiling)
      fms).
  { run_method. rewrite Hleg. cbn. rewrite Hwaypoint. reflexivity. }
  rewrite Hrun. split; [| split; [| split; [| split]]].
  - intros Hhold. by rewrite bool_decide_eq_true_2.
  - intros Hmode Hset. by rewrite bool_decide_eq_false_2, bool_decide_eq_true_2.
  - intros Hmode Hnone. rewrite bool_decide_eq_false_2 by done.
    by rewrite bool_decide_eq_false_2 by (intros ?; done).
  - intros _ Hrestriction Haltitude. split.
    + intros Hhold. by rewrite bool_decide_eq_true_2, Haltitude.
    + intros Hvnav.
      rewrite bool_decide_eq_false_2 by (rewrite Hvnav; done).
      rewrite bool_decide_eq_true_2 by (rewrite Hrestriction; done). by rewrite Hrestriction.
  - intros Hceiling Hnone Hvnav.
    rewrite bool_decide_eq_false_2 by (rewrite Hvnav; done).
    rewrite bool_decide_eq_false_2 by (intros ?; done). by rewrite <- Hceiling.
Qed.

(** The three concrete cases of C3, on the arrival procedure and on a
    fix without restriction. *)
Lemma getAltitude_precedence_witness :
  let hold := Route.arrival (Route.holding 9000 270) [Route.kepec3] in
  let vnav := Route.arrival Route.vnav [Route.kepec3] in
  let free := Route.arrival Route.vnav [Route.direct Route.cowby] in
  Fms.getAltitude hold = Returned 9000 hold
  /\ Fms.getAltitude vnav = Returned 11000 vnav
  /\ Fms.getAltitude free = Returned 41000 free.
Proof.
  intros hold vnav free. split; [| split].
  - destruct (getAltitude_precedence hold Route.kepec3 Route.dag eq_refl eq_refl)
      as (Hhold & _).
    apply Hhold. reflexivity.
  - destruct (getAltitude_precedence vnav Route.kepec3 Route.dag eq_refl eq_refl)
      as (_ & Hrestriction & _).
    apply Hrestriction; discriminate.
  - destruct (getAltitude_precedence free (Route.direct Route.cowby) Route.cowby eq_refl eq_refl)
      as (_ & _ & Hceiling & _).
    apply Hceiling; [discriminate | reflexivity].
Defined.

(** C6: on a non-empty [legCollection], [hasNextWaypoint] returns true
    exactly when the current leg has a next waypoint or the collection
    holds a second leg. *)
Theorem hasNextWaypoint_iff {NavigationLibrary : Type} (fms : Fms.t NavigationLibrary) :
  Fms.legCollection fms <> [] ->
  exists (leg : LegModel.t) (result : bool),
    Fms.legCollection fms !! 0%nat = Some leg
    /\ Fms.hasNextWaypoint fms = Returned result fms
    /\ (result = true <->
        LegModel.hasNextWaypoint leg = true \/ (2 <= length (Fms.legCollection fms))%nat).
Proof.
  intros Hlegs. destruct (Fms.legCollection fms) as [|leg rest] eqn:Hcollection; [done |].
  exists leg, (LegModel.hasNextWaypoint leg || negb (Lodash._isNil (rest !! 0%nat))).
  split; [reflexivity |]. split.
  - run_method. rewrite Hcollection. cbn. by rewrite Hcollection.
  - rewrite orb_true_iff. destruct rest as [|second rest]; cbn; split.
    + intros [? | ?]; [by left | done].
    + intros [? | ?]; [by left | lia].
    + intros _. right. lia.
    + intros _. by right.
Qed.

Lemma hasNextWaypoint_iff_witness :
  exists (leg : LegModel.t) (result : bool),
    Fms.legCollection (Route.arrival Route.vnav [Route.direct Route.cowby; Route.kepec3]) !! 0%nat
      = Some leg
    /\ Fms.hasNextWaypoint (Route.arrival Route.vnav [Route.direct Route.cowby; Route.kepec3])
        = Returned result (Route.arrival Route.vnav [Route.direct Route.cowby; Route.kepec3])
    /\ (result = true <->
        LegModel.hasNextWaypoint leg = true \/ (2 <= 2)%nat).
Proof.
  apply (hasNextWaypoint_iff (Route.arrival Route.vnav [Route.direct Route.cowby; Route.kepec3])).
  discriminate.
Defined.

(** ** Sequencing through the route *)

Section Sequencing.

Context {NavigationLibrary : Type}.
Variable policy : LegModel.ExhaustedPolicy.
Implicit Types (fms : Fms.t NavigationLibrary) (leg second : LegModel.t).
Implicit Types (rest : list LegModel.t).

Lemma setLegCollection_twice fms (legs legs' : list LegModel.t) :
  Fms.setLegCollection legs' (Fms.setLegCollection legs fms) = Fms.setLegCollection legs' fms.
Proof. reflexivity. Qed.

Lemma setLegCollection_same fms : Fms.setLegCollection (Fms.legCollection fms) fms = fms.
Proof. by destruct fms. Qed.

(** [hasNextWaypoint] answers false only on a single exhausted leg. *)
Lemma hasNextWaypoint_false fms fms' :
  Fms.hasNextWaypoint fms = Returned false fms' ->
  exists leg, Fms.legCollection fms = [leg] /\ LegModel.hasNextWaypoint leg = false.
Proof.
  destruct fms as [? ? ? ? [|leg [|second rest]] ?]; run_method.
  - done.
  - rewrite orb_false_r. intros [= Hno _]. eauto.
  - rewrite orb_true_r. done.
Qed.

(** Within a leg that has a next waypoint the cursor moves by one and
    the collection keeps its legs. *)
Lemma nextWaypoint_in_leg fms leg rest :
  Fms.legCollection fms = leg :: rest ->
  LegModel.hasNextWaypoint leg = true ->
  Fms.nextWaypoint policy fms =
  Returned tt
    (Fms.setLegCollection
       (LegModel.skipToWaypointAtIndex (LegModel.currentIndex leg + 1) leg :: rest) fms).
Proof.
  destruct fms; cbn; intros -> Hnext. run_method. rewrite Hnext. cbn.
  unfold LegModel.moveToNextWaypoint. rewrite Hnext. reflexivity.
Qed.

(** At the end of a leg, with a leg behind it that has a next waypoint:
    the exhausted leg is destroyed and removed, then the cursor of the
    leg that became current moves by one. *)
Lemma nextWaypoint_to_next_leg fms leg second rest :
  Fms.legCollection fms = leg :: second :: rest ->
  LegModel.hasNextWaypoint leg = false ->
  LegModel.hasNextWaypoint second = true ->
  Fms.nextWaypoint policy fms =
  Returned tt
    (Fms.setLegCollection
       (LegModel.skipToWaypointAtIndex (LegModel.currentIndex second + 1) second :: rest) fms).
Proof.
  destruct fms; cbn; intros -> Hno Hnext. run_method. rewrite Hno. cbn.
  unfold LegModel.moveToNextWaypoint. rewrite Hnext. reflexivity.
Qed.

(** The same call when the leg behind has no next waypoint: what
    happens is the leg's own choice. *)
Lemma nextWaypoint_to_last_waypoint fms leg second rest :
  Fms.legCollection fms = leg :: second :: rest ->
  LegModel.hasNextWaypoint leg = false ->
  LegModel.hasNextWaypoint second = false ->
  Fms.nextWaypoint policy fms =
  match policy with
  | LegModel.NoOp => Returned tt (Fms.setLegCollection (second :: rest) fms)
  | LegModel.FatalAssertion =>
      Threw (AssertionError "no next waypoint") (Fms.setLegCollection (second :: rest) fms)
  end.
Proof.
  destruct fms; cbn; intros -> Hno Hnext. run_method. rewrite Hno. cbn.
  unfold LegModel.moveToNextWaypoint. rewrite Hnext. by destruct policy.
Qed.

(** At the end of the route the call is not a no-op: the last leg is
    destroyed and removed, and the advance that follows finds no
    current leg. *)
Lemma nextWaypoint_at_end fms leg :
  Fms.legCollection fms = [leg] ->
  LegModel.hasNextWaypoint leg = false ->
  Fms.nextWaypoint policy fms =
  Threw (undefinedProperty "moveToNextWaypoint") (Fms.setLegCollection [] fms).
Proof.
  destruct fms; cbn; intros -> Hno. run_method. rewrite Hno. reflexivity.
Qed.

Lemma nextWaypoint_without_next fms :
  Fms.hasNextWaypoint fms = Returned false fms ->
  Fms.nextWaypoint policy fms =
  Threw (undefinedProperty "moveToNextWaypoint") (Fms.setLegCollection [] fms).
Proof. intros (leg & Hlegs & Hno)%hasNextWaypoint_false. by eapply nextWaypoint_at_end. Qed.

(** What [getNextWaypointPosition] does in each of its three cases. *)
Lemma getNextWaypointPosition_none fms leg :
  Fms.legCollection fms = [leg] ->
  LegModel.hasNextWaypoint leg = false ->
  Fms.getNextWaypointPosition fms = Returned None fms.
Proof.
  destruct fms; cbn; intros -> Hno. run_method. rewrite Hno. reflexivity.
Qed.

Lemma getNextWaypointPosition_in_leg fms leg rest (waypoint : WaypointModel.t) :
  Fms.legCollection fms = leg :: rest ->
  LegModel.nextWaypoint leg = Some waypoint ->
  Fms.getNextWaypointPosition fms = Returned (WaypointModel.position waypoint) fms.
Proof.
  destruct fms; cbn; intros -> Hwaypoint.
  assert (Hnext : LegModel.hasNextWaypoint leg = true)
    by (apply hasNextWaypoint_nextWaypoint; eauto).
  run_method. rewrite Hnext. cbn. rewrite Hwaypoint. cbn. rewrite Hnext. reflexivity.
Qed.

Lemma getNextWaypointPosition_exhausted fms leg second rest :
  Fms.legCollection fms = leg :: second :: rest ->
  LegModel.hasNextWaypoint leg = false ->
  Fms.getNextWaypointPosition fms = Threw (undefinedProperty "position") fms.
Proof.
  destruct fms; cbn; intros -> Hno. run_method. rewrite Hno. cbn.
  rewrite (nextWaypoint_exhausted leg Hno). reflexivity.
Qed.

End Sequencing.

(** ** Looking a waypoint up by name *)

Lemma lowerChar_idempotent (c : ascii) : Str.lowerChar (Str.lowerChar c) = Str.lowerChar c.
Proof. destruct c as [[] [] [] [] [] [] [] []]; reflexivity. Qed.

Lemma toLowerCase_idempotent (s : string) :
  Str.toLowerCase (Str.toLowerCase s) = Str.toLowerCase s.
Proof.
  induction s as [|c s IH]; cbn; [reflexivity |]. by rewrite lowerChar_idempotent, IH.
Qed.

Lemma hasName_true (name : string) (waypoint : WaypointModel.t) :
  Fms.hasName name waypoint = true <-> WaypointModel.name waypoint = name.
Proof. unfold Fms.hasName. apply String.eqb_eq. Qed.

Lemma hasName_false (name : string) (waypoint : WaypointModel.t) :
  Fms.hasName name waypoint = false <-> WaypointModel.name waypoint <> name.
Proof. unfold Fms.hasName. apply String.eqb_neq. Qed.

Section FindIndex.

Context {A : Type} (p : A -> bool).

Lemma findIndex_from_none (array : list A) (i : Z) :
  Forall (fun x => p x = false) array -> Lodash.findIndex_from p array i = -1.
Proof.
  intros Hnone. revert i. induction Hnone as [|x rest Hx _ IH]; intros i; cbn; [done |].
  by rewrite Hx.
Qed.

Lemma findIndex_from_first (array : list A) (i : Z) :
  Exists (fun x => p x = true) array ->
  exists (k : nat) (x : A),
    array !! k = Some x /\ p x = true
    /\ (forall (j : nat) (y : A), (j < k)%nat -> array !! j = Some y -> p y = false)
    /\ Lodash.findIndex_from p array i = i + Z.of_nat k.
Proof.
  revert i. induction array as [|x rest IH]; intros i Hsome; [by apply Exists_nil in Hsome |].
  cbn. destruct (p x) eqn:Hx.
  - exists 0%nat, x. repeat split; [done | | lia]. intros j y Hj. lia.
  - apply Exists_cons in Hsome as [Hhere | Hlater]; [congruence |].
    destruct (IH (i + 1) Hlater) as (k & y & Hk & Hy & Hfirst & Hindex).
    exists (S k), y. repeat split; [done | done | | lia].
    intros [|j] z Hj Hz; [by injection Hz as <- | apply (Hfirst j z); [lia | done]].
Qed.

Lemma findIndex_from_range (array : list A) (i : Z) :
  0 <= i -> Lodash.findIndex_from p array i = -1 \/ 0 <= Lodash.findIndex_from p array i.
Proof.
  revert i. induction array as [|x rest IH]; intros i Hi; cbn; [by left |].
  destruct (p x); [by right | apply IH; lia].
Qed.

End FindIndex.

Section Find.

Variable waypointName : string.

Local Abbreviation target := (Str.toLowerCase waypointName).
Local Abbreviation matches := (matches waypointName).

Lemma not_matches (leg : LegModel.t) :
  ~ matches leg ->
  Lodash._findIndex (LegModel.waypointCollection leg) (Fms.hasName target) = -1.
Proof.
  intros Hnone. apply findIndex_from_none. apply Forall_forall. intros waypoint Hin.
  destruct (Fms.hasName target waypoint) eqn:Hname; [| done].
  exfalso. apply Hnone. apply Exists_exists. eauto.
Qed.

Lemma findFrom_none (legs : list LegModel.t) (i : nat) :
  Forall (fun leg => ~ matches leg) legs ->
  Fms.findFrom legs i waypointName = Fms.mkIndex (i + length legs) (-1).
Proof.
  intros Hnone. revert i. induction Hnone as [|leg rest Hleg _ IH]; intros i; cbn.
  - f_equal. lia.
  - rewrite (not_matches leg Hleg). cbn. rewrite IH. f_equal. lia.
Qed.

Lemma findFrom_first (legs : list LegModel.t) (i : nat) :
  Exists matches legs ->
  exists (li wi : nat) (leg : LegModel.t) (waypoint : WaypointModel.t),
    legs !! li = Some leg
    /\ (forall (j : nat) (earlier : LegModel.t),
          (j < li)%nat -> legs !! j = Some earlier -> ~ matches earlier)
    /\ LegModel.waypointCollection leg !! wi = Some waypoint
    /\ WaypointModel.name waypoint = target
    /\ (forall (k : nat) (other : WaypointModel.t),
          (k < wi)%nat -> LegModel.waypointCollection leg !! k = Some other ->
          WaypointModel.name other <> target)
    /\ Fms.findFrom legs i waypointName = Fms.mkIndex (i + li) (Z.of_nat wi).
Proof.
  revert i. induction legs as [|leg rest IH]; intros i Hsome; [by apply Exists_nil in Hsome |].
  cbn.
  destruct (decide (Exists (fun waypoint => Fms.hasName target waypoint = true)
                      (LegModel.waypointCollection leg))) as [Hhere | Hnot].
  - destruct (findIndex_from_first (Fms.hasName target) _ 0 Hhere)
      as (wi & waypoint & Hwi & Hname & Hfirst & Hindex).
    unfold Lodash._findIndex. rewrite Hindex.
    rewrite bool_decide_eq_true_2 by lia.
    exists 0%nat, wi, leg, waypoint. repeat split; try done.
    + intros j earlier Hj. lia.
    + by apply hasName_true.
    + intros k other Hk Hother. apply hasName_false. eauto.
    + f_equal. lia.
  - rewrite (not_matches leg Hnot). cbn.
    apply Exists_cons in Hsome as [Hhere | Hlater]; [done |].
    destruct (IH (S i) Hlater) as (li & wi & found & waypoint & Hli & Hearlier & Hrest).
    exists (S li), wi, found, waypoint. split; [done |]. split.
    + intros [|j] earlier Hj Hlookup; [by injection Hlookup as <- |].
      apply (Hearlier j); [lia | done].
    + destruct Hrest as (? & ? & ? & ->). repeat split; try done. f_equal. lia.
Qed.

End Find.

Lemma matches_legContains (waypointName : string) (leg : LegModel.t) :
  matches waypointName leg -> legContains waypointName leg.
Proof.
  intros (waypoint & Hin & Hname%hasName_true)%Exists_exists.
  apply Exists_exists. exists waypoint. split; [done |].
  unfold sameNameIgnoringCase. rewrite Hname. apply toLowerCase_idempotent.
Qed.

Lemma namesInLowerCase_lookup (legs : list LegModel.t) (leg : LegModel.t)
    (waypoint : WaypointModel.t) :
  namesInLowerCase legs -> leg ∈ legs -> waypoint ∈ LegModel.waypointCollection leg ->
  Str.toLowerCase (WaypointModel.name waypoint) = WaypointModel.name waypoint.
Proof.
  intros Hlower Hleg Hin. unfold namesInLowerCase in Hlower.
  rewrite Forall_forall in Hlower. specialize (Hlower leg Hleg).
  rewrite Forall_forall in Hlower. by apply Hlower.
Qed.

Lemma legContains_matches (waypointName : string) (legs : list LegModel.t) (leg : LegModel.t) :
  namesInLowerCase legs -> leg ∈ legs ->
  legContains waypointName leg -> matches waypointName leg.
Proof.
  intros Hlower Hleg (waypoint & Hin & Hsame)%Exists_exists. apply Exists_exists.
  exists waypoint. split; [done |]. apply hasName_true.
  rewrite <- (namesInLowerCase_lookup legs leg waypoint Hlower Hleg Hin). exact Hsame.
Qed.

Section Skipping.

Context {NavigationLibrary : Type}.
Implicit Types (fms : Fms.t NavigationLibrary) (leg : LegModel.t).

(** The search finds nothing: every leg is dropped before the call
    fails on the missing current leg. *)
Lemma skipToWaypoint_not_found fms (waypointName : string) :
  Forall (fun leg => ~ matches waypointName leg) (Fms.legCollection fms) ->
  Fms.skipToWaypoint waypointName fms =
  Threw (undefinedProperty "skipToWaypointAtIndex") (Fms.setLegCollection [] fms).
Proof.
  destruct fms as [? ? ? ? legs ?]; cbn; intros Hnone. run_method.
  rewrite (findFrom_none waypointName legs 0 Hnone). cbn.
  unfold Lodash._drop. rewrite drop_all. reflexivity.
Qed.

(** The search finds the first leg with a match and the first match in
    it: the legs before it go, and its cursor is set on the match. *)
Lemma skipToWaypoint_found fms (waypointName : string) :
  Exists (matches waypointName) (Fms.legCollection fms) ->
  exists (li wi : nat) (leg : LegModel.t) (waypoint : WaypointModel.t),
    Fms.legCollection fms !! li = Some leg
    /\ (forall (j : nat) (earlier : LegModel.t),
          (j < li)%nat -> Fms.legCollection fms !! j = Some earlier ->
          ~ matches waypointName earlier)
    /\ LegModel.waypointCollection leg !! wi = Some waypoint
    /\ WaypointModel.name waypoint = Str.toLowerCase waypointName
    /\ (forall (k : nat) (other : WaypointModel.t),
          (k < wi)%nat -> LegModel.waypointCollection leg !! k = Some other ->
          WaypointModel.name other <> Str.toLowerCase waypointName)
    /\ Fms.skipToWaypoint waypointName fms =
       Returned tt
         (Fms.setLegCollection
            (LegModel.skipToWaypointAtIndex (Z.of_nat wi) leg
             :: drop (S li) (Fms.legCollection fms))
            fms).
Proof.
  destruct fms as [? ? ? ? legs ?]; cbn; intros Hsome.
  destruct (findFrom_first waypointName legs 0 Hsome)
    as (li & wi & leg & waypoint & Hli & Hearlier & Hwi & Hname & Hfirst & Hfound).
  exists li, wi, leg, waypoint. repeat split; try done.
  run_method. rewrite Hfound. cbn.
  unfold Lodash._drop. rewrite (drop_S legs leg li Hli). reflexivity.
Qed.

Lemma currentWaypoint_after_skip fms leg (rest : list LegModel.t) (wi : nat) :
  Fms.currentWaypoint
    (Fms.setLegCollection (LegModel.skipToWaypointAtIndex (Z.of_nat wi) leg :: rest) fms) =
  Returned (LegModel.waypointCollection leg !! wi)
    (Fms.setLegCollection (LegModel.skipToWaypointAtIndex (Z.of_nat wi) leg :: rest) fms).
Proof.
  run_method. unfold LegModel.currentWaypoint, LegModel.entry. cbn.
  destruct (Z.ltb_spec (Z.of_nat wi) 0); [lia |]. by rewrite Nat2Z.id.
Qed.

End Skipping.

(** C4: when the route holds a waypoint of that name, whatever the case
    of the argument, [skipToWaypoint] returns with the legs before the
    first leg holding such a waypoint removed and nothing else, that leg
    in front with its cursor on its first waypoint of that name, and the
    current waypoint named by the argument in lower case. *)
Theorem skipToWaypoint_reaches_waypoint {NavigationLibrary : Type}
    (fms : Fms.t NavigationLibrary) (waypointName : string) :
  namesInLowerCase (Fms.legCollection fms) ->
  routeContains waypointName (Fms.legCollection fms) ->
  exists (li wi : nat) (leg : LegModel.t) (waypoint : WaypointModel.t)
         (fms' : Fms.t NavigationLibrary),
    Fms.skipToWaypoint waypointName fms = Returned tt fms'
    /\ Fms.legCollection fms !! li = Some leg
    /\ legContains waypointName leg
    /\ (forall (j : nat) (earlier : LegModel.t),
          (j < li)%nat -> Fms.legCollection fms !! j = Some earlier ->
          ~ legContains waypointName earlier)
    /\ LegModel.waypointCollection leg !! wi = Some waypoint
    /\ (forall (k : nat) (other : WaypointModel.t),
          (k < wi)%nat -> LegModel.waypointCollection leg !! k = Some other ->
          ~ sameNameIgnoringCase (WaypointModel.name other) waypointName)
    /\ fms' =
       Fms.setLegCollection
         (LegModel.skipToWaypointAtIndex (Z.of_nat wi) leg :: drop (S li) (Fms.legCollection fms))
         fms
    /\ Fms.currentWaypoint fms' = Returned (Some waypoint) fms'
    /\ WaypointModel.name waypoint = Str.toLowerCase waypointName.
Proof.
  intros Hlower (holder & Hholder & Hcontains)%Exists_exists.
  assert (Hsome : Exists (matches waypointName) (Fms.legCollection fms)).
  { apply Exists_exists. exists holder. split; [done |]. by eapply legContains_matches. }
  destruct (skipToWaypoint_found fms waypointName Hsome)
    as (li & wi & leg & waypoint & Hli & Hearlier & Hwi & Hname & Hfirst & Hrun).
  assert (Hleg : leg ∈ Fms.legCollection fms) by (by eapply list_elem_of_lookup_2).
  eexists li, wi, leg, waypoint, _. split; [exact Hrun |].
  split; [done |]. split.
  { apply matches_legContains. apply Exists_exists. exists waypoint.
    split; [by eapply list_elem_of_lookup_2 | by apply hasName_true]. }
  split.
  { intros j earlier Hj Hlookup Hin. apply (Hearlier j earlier Hj Hlookup).
    eapply legContains_matches; [done | by eapply list_elem_of_lookup_2 | done]. }
  split; [done |]. split.
  { intros k other Hk Hlookup Hsame. apply (Hfirst k other Hk Hlookup).
    rewrite <- (namesInLowerCase_lookup _ leg other Hlower Hleg)
      by (by eapply list_elem_of_lookup_2).
    exact Hsame. }
  split; [reflexivity |]. split; [| done].
  rewrite currentWaypoint_after_skip. by rewrite Hwi.
Qed.

Lemma skipToWaypoint_reaches_waypoint_witness :
  exists (li wi : nat) (leg : LegModel.t) (waypoint : WaypointModel.t) (fms' : Fms.t unit),
    Fms.skipToWaypoint "MISEN" Route.filed = Returned tt fms'
    /\ Fms.legCollection Route.filed !! li = Some leg
    /\ legContains "MISEN" leg
    /\ (forall (j : nat) (earlier : LegModel.t),
          (j < li)%nat -> Fms.legCollection Route.filed !! j = Some earlier ->
          ~ legContains "MISEN" earlier)
    /\ LegModel.waypointCollection leg !! wi = Some waypoint
    /\ (forall (k : nat) (other : WaypointModel.t),
          (k < wi)%nat -> LegModel.waypointCollection leg !! k = Some other ->
          ~ sameNameIgnoringCase (WaypointModel.name other) "MISEN")
    /\ fms' =
       Fms.setLegCollection
         (LegModel.skipToWaypointAtIndex (Z.of_nat wi) leg
          :: drop (S li) (Fms.legCollection Route.filed))
         Route.filed
    /\ Fms.currentWaypoint fms' = Returned (Some waypoint) fms'
    /\ WaypointModel.name waypoint = Str.toLowerCase "MISEN".
Proof.
  apply (skipToWaypoint_reaches_waypoint Route.filed "MISEN").
  - repeat (apply Forall_cons; split); try apply Forall_nil; reflexivity.
  - do 2 apply Exists_cons_tl. apply Exists_cons_hd.
    apply Exists_cons_tl. apply Exists_cons_hd. reflexivity.
Defined.

Example skipToWaypoint_misen :
  Fms.skipToWaypoint "MISEN" Route.filed =
  Returned tt
    (Route.arrival Route.vnav
       [LegModel.mk [Route.dag; Route.misen; Route.clarr; Route.kepec] 1 "dag.kepec3.klas"
          LegModel.Procedure]).
Proof. reflexivity. Qed.

(** In the vocabulary of the statements: a name the route does not hold,
    whatever the case, is a name the search does not find. *)
Lemma skipToWaypoint_absent {NavigationLibrary : Type} (fms : Fms.t NavigationLibrary)
    (waypointName : string) :
  ~ routeContains waypointName (Fms.legCollection fms) ->
  Fms.skipToWaypoint waypointName fms =
  Threw (undefinedProperty "skipToWaypointAtIndex") (Fms.setLegCollection [] fms).
Proof.
  intros Habsent. apply skipToWaypoint_not_found. apply Forall_forall.
  intros leg Hleg Hmatch. apply Habsent. apply Exists_exists.
  exists leg. split; [done | by apply matches_legContains].
Qed.

(** Refutes membership of a name in a concrete route. *)
Ltac absent_name H :=
  repeat match type of H with
         | Exists _ (_ :: _) => apply Exists_cons in H as [H | H]
         | Exists _ [] => by apply Exists_nil in H
         | legContains _ _ => unfold legContains in H; cbn in H
         | routeContains _ _ => unfold routeContains in H; cbn in H
         | sameNameIgnoringCase _ _ => discriminate H
         end.

(** C1: on the filed route, which holds no waypoint named [prino], the
    call [skipToWaypoint("PRINO")] throws the runtime's [TypeError] and
    leaves [legCollection] empty: all three legs are gone. *)
Theorem skipToWaypoint_absent_name_empties_route :
  ~ routeContains "PRINO" (Fms.legCollection Route.filed)
  /\ length (Fms.legCollection Route.filed) = 3%nat
  /\ Fms.skipToWaypoint "PRINO" Route.filed =
     Threw (TypeError "Cannot read property 'skipToWaypointAtIndex' of undefined")
       (Route.arrival Route.vnav []).
Proof.
  split; [| split].
  - intros Hin. absent_name Hin.
  - reflexivity.
  - reflexivity.
Qed.

(** C2: on a route down to its last fix, [hasNextWaypoint] is false, and
    [nextWaypoint] is not a no-op there: it throws the runtime's
    [TypeError] and leaves [legCollection] empty, whatever the leg does
    when asked to move past its end. *)
Theorem nextWaypoint_at_end_empties_route :
  Fms.hasNextWaypoint Route.lastFix = Returned false Route.lastFix
  /\ Fms.legCollection Route.lastFix = [Route.direct Route.cowby]
  /\ forall policy : LegModel.ExhaustedPolicy,
       Fms.nextWaypoint policy Route.lastFix =
       Threw (TypeError "Cannot read property 'moveToNextWaypoint' of undefined")
         (Route.arrival Route.vnav []).
Proof.
  split; [reflexivity |]. split; [reflexivity |].
  intros policy. by rewrite nextWaypoint_without_next.
Qed.

(** C5: on the route [cowby..bikkr] at its first fix, the current leg is
    exhausted and a leg follows, so [hasNextWaypoint] is true; yet
    [getNextWaypointPosition] does not return the position of [bikkr]:
    it throws on reading [position] of the missing next waypoint of the
    current leg. *)
Theorem getNextWaypointPosition_exhausted_leg_throws :
  Fms.hasNextWaypoint Route.twoFixes = Returned true Route.twoFixes
  /\ LegModel.hasNextWaypoint (Route.direct Route.cowby) = false
  /\ Fms.legCollection Route.twoFixes !! 1%nat = Some (Route.direct Route.bikkr)
  /\ Fms.getNextWaypointPosition Route.twoFixes =
     Threw (TypeError "Cannot read property 'position' of undefined") Route.twoFixes.
Proof. repeat split. Qed.

(** The route [cowby..bikkr] refutes C10 as it is written: the leg after
    the exhausted one has no waypoint at index 1, so after the call the
    current waypoint is its first waypoint or the call has thrown, and
    beforehand [getNextWaypointPosition] threw instead of reporting the
    position of that first waypoint. *)
Lemma nextWaypoint_skips_first_counterexample :
  Fms.legCollection Route.twoFixes = [Route.direct Route.cowby; Route.direct Route.bikkr]
  /\ LegModel.hasNextWaypoint (Route.direct Route.cowby) = false
  /\ Fms.nextWaypoint LegModel.NoOp Route.twoFixes =
     Returned tt (Route.arrival Route.vnav [Route.direct Route.bikkr])
  /\ Fms.currentWaypoint (Route.arrival Route.vnav [Route.direct Route.bikkr]) =
     Returned (LegModel.waypointCollection (Route.direct Route.bikkr) !! 0%nat)
       (Route.arrival Route.vnav [Route.direct Route.bikkr])
  /\ Fms.nextWaypoint LegModel.FatalAssertion Route.twoFixes =
     Threw (AssertionError "no next waypoint") (Route.arrival Route.vnav [Route.direct Route.bikkr])
  /\ Fms.getNextWaypointPosition Route.twoFixes <>
     Returned (WaypointModel.position Route.bikkr) Route.twoFixes
  /\ ~ (exists (policy : LegModel.ExhaustedPolicy) (fms' : Fms.t unit)
               (second : WaypointModel.t),
          Fms.nextWaypoint policy Route.twoFixes = Returned tt fms'
          /\ LegModel.waypointCollection (Route.direct Route.bikkr) !! 1%nat = Some second
          /\ Fms.currentWaypoint fms' = Returned (Some second) fms').
Proof.
  repeat split; [discriminate |].
  intros (policy & fms' & second & _ & Hsecond & _). discriminate Hsecond.
Qed.

(** C10, amended: when the current leg is exhausted and the leg after it
    has its cursor on its first waypoint and at least two waypoints,
    [nextWaypoint] removes the exhausted leg and moves the cursor of the
    leg that became current to index 1: the current waypoint is then that
    leg's waypoint at index 1, not its first one. *)
Theorem nextWaypoint_skips_first_of_next_leg {NavigationLibrary : Type}
    (policy : LegModel.ExhaustedPolicy) (fms : Fms.t NavigationLibrary)
    (leg second : LegModel.t) (rest : list LegModel.t) :
  Fms.legCollection fms = leg :: second :: rest ->
  LegModel.hasNextWaypoint leg = false ->
  LegModel.currentIndex second = 0 ->
  (2 <= length (LegModel.waypointCollection second))%nat ->
  exists (waypoint : WaypointModel.t) (fms' : Fms.t NavigationLibrary),
    Fms.nextWaypoint policy fms = Returned tt fms'
    /\ fms' = Fms.setLegCollection (LegModel.skipToWaypointAtIndex 1 second :: rest) fms
    /\ LegModel.waypointCollection second !! 1%nat = Some waypoint
    /\ Fms.currentWaypoint fms' = Returned (Some waypoint) fms'.
Proof.
  intros Hlegs Hno Hcursor Hlength.
  destruct (lookup_lt_is_Some_2 (LegModel.waypointCollection second) 1 Hlength)
    as [waypoint Hwaypoint].
  assert (Hnext : LegModel.hasNextWaypoint second = true).
  { apply hasNextWaypoint_true. rewrite Hcursor. lia. }
  exists waypoint, (Fms.setLegCollection (LegModel.skipToWaypointAtIndex 1 second :: rest) fms).
  split; [| split; [reflexivity | split; [done |]]].
  - rewrite (nextWaypoint_to_next_leg policy fms leg second rest Hlegs Hno Hnext).
    by rewrite Hcursor.
  - rewrite <- Hwaypoint. exact (currentWaypoint_after_skip fms second rest 1).
Qed.

Lemma nextWaypoint_skips_first_of_next_leg_witness :
  exists (waypoint : WaypointModel.t) (fms' : Fms.t unit),
    Fms.nextWaypoint LegModel.NoOp (Route.arrival Route.vnav [Route.direct Route.cowby; Route.kepec3])
      = Returned tt fms'
    /\ fms' =
       Fms.setLegCollection (LegModel.skipToWaypointAtIndex 1 Route.kepec3 :: [])
         (Route.arrival Route.vnav [Route.direct Route.cowby; Route.kepec3])
    /\ LegModel.waypointCollection Route.kepec3 !! 1%nat = Some waypoint
    /\ Fms.currentWaypoint fms' = Returned (Some waypoint) fms'.
Proof.
  apply (nextWaypoint_skips_first_of_next_leg LegModel.NoOp
           (Route.arrival Route.vnav [Route.direct Route.cowby; Route.kepec3])
           (Route.direct Route.cowby) Route.kepec3 []).
  - reflexivity.
  - reflexivity.
  - reflexivity.
  - simpl. lia.
Defined.

(** ** Construction *)

Section Construction.

Context {NavigationLibrary : Type}.
Variable newLegModel :
  string -> string -> JsValue -> option NavigationLibrary -> option LegModel.t.
Variable newModeController : AircraftTypeDefinitionModel.t -> ModeController.t.
Implicit Types (fms this : Fms.t NavigationLibrary) (props : JsValue).

(** [init] throws nothing but what the route parser and the navigation
    data throw. *)
Lemma init_throws props this (e : Error) this' :
  Fms.init newLegModel props this = Threw e this' ->
  e = MalformedRouteError \/ e = LookupError.
Proof.
  unfold Fms.init, Fms._buildInitialLegCollection. run_method.
  destruct (RouteStringCodec.routeStringFormatHelper (getProp props "route"))
    as [e' | segments] eqn:Hparse; cbn.
  - intros [= <- _]. left.
    unfold RouteStringCodec.routeStringFormatHelper in Hparse.
    destruct (getProp props "route"); try (by injection Hparse as <-).
    destruct (RouteStringCodec.parse s); [done | by injection Hparse as <-].
  - destruct (mapM _ segments); cbn; [done |]. intros [= <- _]. by right.
Qed.

(** A route whose segments all have a leg gives one leg per segment,
    in order. *)
Lemma init_returns props this (s : string) (segments : list string) (legs : list LegModel.t) :
  getProp props "route" = JsString s ->
  RouteStringCodec.parse s = Some segments ->
  mapM
    (fun routeSegment =>
       newLegModel routeSegment (Fms._runwayName this) (getProp props "category")
         (Fms._navigationLibrary this))
    segments = Some legs ->
  Fms.init newLegModel props this =
  Returned tt
    (Fms.setLegCollection legs (Fms.setCurrentPhase (getProp props "category") this)).
Proof.
  intros Hroute Hparse Hlegs.
  unfold Fms.init, Fms._buildInitialLegCollection. run_method.
  unfold RouteStringCodec.routeStringFormatHelper. rewrite Hroute, Hparse. cbn.
  rewrite Hlegs. reflexivity.
Qed.

Lemma mapM_routeString (f : string -> option LegModel.t) (segments : list string) :
  Forall (fun segment => exists leg, f segment = Some leg /\ LegModel.routeString leg = segment)
    segments ->
  exists legs, mapM f segments = Some legs /\ map LegModel.routeString legs = segments.
Proof.
  induction 1 as [|segment rest (leg & Hleg & Hstring) _ (legs & Hlegs & Hstrings)].
  - by exists [].
  - exists (leg :: legs). cbn. rewrite Hleg. cbn. rewrite Hlegs. cbn.
    by rewrite Hstring, Hstrings.
Qed.

Lemma getProp_string_nonempty props (key s : string) :
  getProp props key = JsString s ->
  Lodash._isObject props = true /\ Lodash._isEmpty props = false.
Proof.
  destruct props as [| | | | |elements|[|prop rest]]; try done.
Qed.

End Construction.

(** C9: the constructor throws its own [TypeError] exactly when the
    initialisation payload is not an object or is empty; on a non-empty
    object it never throws that error. *)
Theorem constructor_invalid_init {NavigationLibrary : Type}
    (newLegModel : string -> string -> JsValue -> option NavigationLibrary -> option LegModel.t)
    (newModeController : AircraftTypeDefinitionModel.t -> ModeController.t)
    (aircraftInitProps : JsValue) (initialRunwayAssignment : string)
    (typeDefinitionModel : AircraftTypeDefinitionModel.t) (navigationLibrary : NavigationLibrary) :
  Fms.constructor newLegModel newModeController aircraftInitProps initialRunwayAssignment
    typeDefinitionModel navigationLibrary = inl invalidInitProps
  <-> (Lodash._isObject aircraftInitProps = false \/ Lodash._isEmpty aircraftInitProps = true).
Proof.
  unfold Fms.constructor.
  destruct (Lodash._isObject aircraftInitProps), (Lodash._isEmpty aircraftInitProps);
    cbv [negb orb]; try (split; [intros _; auto | done]).
  split; [| intros [? | ?]; done].
  match goal with
  | |- context [Fms.init ?f ?props ?this] =>
      destruct (Fms.init f props this) as [[] this' | e this'] eqn:Hinit; [done |]
  end.
  apply init_throws in Hinit as [-> | ->]; done.
Qed.

Example constructor_rejects :
  Fms.constructor Route.newLegModel Route.newModeController JsUndefined "19l" Route.b737 tt
    = inl invalidInitProps
  /\ Fms.constructor Route.newLegModel Route.newModeController JsNull "19l" Route.b737 tt
    = inl invalidInitProps
  /\ Fms.constructor Route.newLegModel Route.newModeController (JsString "cowby") "19l"
      Route.b737 tt = inl invalidInitProps
  /\ Fms.constructor Route.newLegModel Route.newModeController (JsObject []) "19l" Route.b737 tt
    = inl invalidInitProps
  /\ Fms.constructor Route.newLegModel Route.newModeController (Route.initProps "cowby..bikkr")
      "19l" Route.b737 tt = inr Route.twoFixes
  /\ Fms.constructor Route.newLegModel Route.newModeController (Route.initProps "cowby..prino")
      "19l" Route.b737 tt = inl LookupError
  /\ Fms.constructor Route.newLegModel Route.newModeController
      (JsObject [("category", JsString "arrival")]) "19l" Route.b737 tt = inl MalformedRouteError.
Proof. repeat split. Qed.

(** Construction and [currentRoute] on their own: when each segment of
    the parsed route has a leg whose route string is the segment, the
    instance has one leg per segment and [currentRoute] is the route
    string again. *)
Theorem constructor_route_roundtrip {NavigationLibrary : Type}
    (newLegModel : string -> string -> JsValue -> option NavigationLibrary -> option LegModel.t)
    (newModeController : AircraftTypeDefinitionModel.t -> ModeController.t)
    (aircraftInitProps : JsValue) (initialRunwayAssignment : string)
    (typeDefinitionModel : AircraftTypeDefinitionModel.t) (navigationLibrary : NavigationLibrary)
    (s : string) (segments : list string) :
  getProp aircraftInitProps "route" = JsString s ->
  RouteStringCodec.parse s = Some segments ->
  Forall
    (fun segment =>
       exists leg,
         newLegModel segment initialRunwayAssignment (getProp aircraftInitProps "category")
           (Some navigationLibrary) = Some leg
         /\ LegModel.routeString leg = segment)
    segments ->
  exists fms : Fms.t NavigationLibrary,
    Fms.constructor newLegModel newModeController aircraftInitProps initialRunwayAssignment
      typeDefinitionModel navigationLibrary = inr fms
    /\ length (Fms.legCollection fms) = length segments
    /\ Fms.currentRoute fms = Returned s fms.
Proof.
  intros Hroute Hparse Hlegs.
  destruct (mapM_routeString _ segments Hlegs) as (legs & HmapM & Hstrings).
  destruct (getProp_string_nonempty _ _ _ Hroute) as [Hobject Hnonempty].
  eexists. split; [| split].
  - unfold Fms.constructor. rewrite Hobject, Hnonempty. cbv [negb orb].
    erewrite init_returns; [reflexivity | exact Hroute | exact Hparse | exact HmapM].
  - cbn. rewrite <- Hstrings. by rewrite length_map.
  - run_method. rewrite Hstrings. f_equal.
    unfold RouteStringCodec.parse in Hparse.
    destruct (bool_decide (s = "")); [done |].
    destruct (forallb RouteStringCodec.segmentOk (Str.splitOnDots s "")); [| done].
    injection Hparse as <-. apply join_split_roundtrip.
Qed.

Lemma constructor_route_roundtrip_witness :
  exists fms : Fms.t unit,
    Fms.constructor Route.newLegModel Route.newModeController
      (Route.initProps "cowby..bikkr..dag.kepec3.klas") "19l" Route.b737 tt = inr fms
    /\ length (Fms.legCollection fms) = 3%nat
    /\ Fms.currentRoute fms = Returned "cowby..bikkr..dag.kepec3.klas" fms.
Proof.
  apply (constructor_route_roundtrip Route.newLegModel Route.newModeController
           (Route.initProps "cowby..bikkr..dag.kepec3.klas") "19l" Route.b737 tt
           "cowby..bikkr..dag.kepec3.klas" ["cowby"; "bikkr"; "dag.kepec3.klas"]).
  - reflexivity.
  - reflexivity.
  - repeat (apply Forall_cons; split); try apply Forall_nil;
      (eexists; split; reflexivity).
Defined.


(** * Further properties of the class [Fms] *)

Section MoreReading.

Context {NavigationLibrary : Type}.
Implicit Types (fms : Fms.t NavigationLibrary) (leg : LegModel.t).
Implicit Types (waypoint : WaypointModel.t).

(** X1: with a current waypoint, [getSpeed] returns the speed held by the
    mode controller in HOLD mode whatever the restriction, else the speed
    restriction of the current waypoint when it is not -1, else the
    cruise speed of the aircraft type; it writes nothing. *)
Theorem getSpeed_precedence fms leg waypoint :
  Fms.legCollection fms !! 0%nat = Some leg ->
  LegModel.currentWaypoint leg = Some waypoint ->
  let mc := Fms._modeController fms in
  let restriction := WaypointModel.speedRestriction waypoint in
  let cruise :=
    AircraftTypeDefinitionModel.cruise
      (AircraftTypeDefinitionModel.speed (Fms._aircraftTypeDefinition fms)) in
  (ModeController.speedMode mc = ModeController.SPEED_HOLD ->
   Fms.getSpeed fms = Returned (ModeController.speed mc) fms)
  /\ (ModeController.speedMode mc <> ModeController.SPEED_HOLD -> restriction <> -1 ->
      Fms.getSpeed fms = Returned restriction fms)
  /\ (ModeController.speedMode mc <> ModeController.SPEED_HOLD -> restriction = -1 ->
      Fms.getSpeed fms = Returned cruise fms).
Proof.
  intros Hleg Hwaypoint mc restriction cruise.
  rewrite (getSpeed_returns fms leg waypoint Hleg Hwaypoint).
  fold mc restriction cruise. split; [| split].
  - intros Hhold. by rewrite bool_decide_eq_true_2.
  - intros Hmode Hset. by rewrite bool_decide_eq_false_2, bool_decide_eq_true_2.
  - intros Hmode Hnone. rewrite bool_decide_eq_false_2 by done.
    by rewrite bool_decide_eq_false_2 by (intros ?; done).
Qed.

(** X2: on an empty [legCollection] every method that reads the current
    leg throws the runtime's [TypeError] and writes nothing, in any mode;
    [currentRoute] still returns the empty string. *)
Theorem empty_route_throws (policy : LegModel.ExhaustedPolicy) fms (waypointName : string) :
  Fms.legCollection fms = [] ->
  Fms.getAltitude fms = Threw (undefinedProperty "currentWaypoint") fms
  /\ Fms.getSpeed fms = Threw (undefinedProperty "currentWaypoint") fms
  /\ Fms.setAltitudeVnav fms = Threw (undefinedProperty "currentWaypoint") fms
  /\ Fms.hasNextWaypoint fms = Threw (undefinedProperty "hasNextWaypoint") fms
  /\ Fms.nextWaypoint policy fms = Threw (undefinedProperty "hasNextWaypoint") fms
  /\ Fms.getNextWaypointPosition fms = Threw (undefinedProperty "hasNextWaypoint") fms
  /\ Fms.skipToWaypoint waypointName fms = Threw (undefinedProperty "skipToWaypointAtIndex") fms
  /\ Fms.currentRoute fms = Returned "" fms.
Proof.
  destruct fms as [? ? ? ? legs ?]; cbn; intros ->.
  repeat split.
Qed.

End MoreReading.

Lemma getSpeed_precedence_witness :
  let hold :=
    Route.arrival
      (ModeController.setSpeedModeAndValue ModeController.SPEED_HOLD 250 Route.vnav)
      [Route.kepec3] in
  let vnav := Route.arrival Route.vnav [Route.kepec3] in
  let free := Route.arrival Route.vnav [Route.direct Route.cowby] in
  Fms.getSpeed hold = Returned 250 hold
  /\ Fms.getSpeed vnav = Returned 280 vnav
  /\ Fms.getSpeed free = Returned 460 free.
Proof.
  intros hold vnav free. split; [| split].
  - destruct (getSpeed_precedence hold Route.kepec3 Route.dag eq_refl eq_refl) as (Hhold & _).
    apply Hhold. reflexivity.
  - destruct (getSpeed_precedence vnav Route.kepec3 Route.dag eq_refl eq_refl)
      as (_ & Hrestriction & _).
    apply Hrestriction; discriminate.
  - destruct (getSpeed_precedence free (Route.direct Route.cowby) Route.cowby eq_refl eq_refl)
      as (_ & _ & Hcruise).
    apply Hcruise; [discriminate | reflexivity].
Defined.

Lemma empty_route_throws_witness :
  Fms.getAltitude (Route.arrival (Route.holding 9000 270) [])
  = Threw (undefinedProperty "currentWaypoint") (Route.arrival (Route.holding 9000 270) []).
Proof.
  apply (empty_route_throws LegModel.NoOp (Route.arrival (Route.holding 9000 270) []) "cowby").
  reflexivity.
Defined.

(** The value [getHeading] returns, as one expression. *)
Lemma getHeading_returns {NavigationLibrary : Type} (fms : Fms.t NavigationLibrary) :
  Fms.getHeading fms =
  Returned
    (if bool_decide
          (ModeController.headingMode (Fms._modeController fms) = ModeController.HEADING_HOLD)
     then ModeController.heading (Fms._modeController fms)
     else -999)
    fms.
Proof. reflexivity. Qed.

Section MoreSequencing.

Context {NavigationLibrary : Type}.
Variable policy : LegModel.ExhaustedPolicy.
Implicit Types (fms : Fms.t NavigationLibrary) (leg : LegModel.t).
Implicit Types (rest : list LegModel.t) (waypoint : WaypointModel.t).

Lemma skipToWaypointAtIndex_same leg :
  LegModel.skipToWaypointAtIndex (LegModel.currentIndex leg) leg = leg.
Proof. by destruct leg. Qed.

Lemma setLegCollection_eq fms (legs : list LegModel.t) :
  Fms.legCollection fms = legs -> Fms.setLegCollection legs fms = fms.
Proof. intros <-. by destruct fms. Qed.

Lemma currentRoute_returns fms :
  Fms.currentRoute fms =
  Returned (Str.join ".." (map LegModel.routeString (Fms.legCollection fms))) fms.
Proof. reflexivity. Qed.

(** X3: [destroy] empties the route and forgets runway, phase and
    navigation library, but keeps the mode controller and the aircraft
    type as they are: afterwards [currentRoute] is the empty string,
    [getHeading] answers as before, [getAltitude] throws, and a second
    [destroy] changes nothing. *)
Theorem destroy_keeps_modes fms :
  exists fms',
    Fms.destroy fms = Returned tt fms'
    /\ fms' =
       Fms.mk None (Fms._modeController fms) (Fms._aircraftTypeDefinition fms) "" []
         (JsString "")
    /\ Fms._modeController fms' = Fms._modeController fms
    /\ Fms._aircraftTypeDefinition fms' = Fms._aircraftTypeDefinition fms
    /\ Fms.legCollection fms' = []
    /\ Fms._navigationLibrary fms' = None
    /\ Fms._runwayName fms' = ""
    /\ Fms.currentPhase fms' = JsString ""
    /\ Fms.currentRoute fms' = Returned "" fms'
    /\ (forall heading, Fms.getHeading fms = Returned heading fms ->
                        Fms.getHeading fms' = Returned heading fms')
    /\ Fms.getAltitude fms' = Threw (undefinedProperty "currentWaypoint") fms'
    /\ Fms.destroy fms' = Returned tt fms'.
Proof.
  eexists. split; [reflexivity |]. repeat split.
  intros heading. rewrite !getHeading_returns. cbn. by intros [= <-].
Qed.

End MoreSequencing.

Section MoreWalking.

Context {NavigationLibrary : Type}.
Variable policy : LegModel.ExhaustedPolicy.
Implicit Types (fms : Fms.t NavigationLibrary) (leg : LegModel.t).
Implicit Types (rest : list LegModel.t) (waypoint : WaypointModel.t).

Lemma currentWaypoint_at fms leg rest (i : Z) :
  Fms.currentWaypoint
    (Fms.setLegCollection (LegModel.skipToWaypointAtIndex i leg :: rest) fms) =
  Returned (LegModel.entry leg i)
    (Fms.setLegCollection (LegModel.skipToWaypointAtIndex i leg :: rest) fms).
Proof. reflexivity. Qed.

(** X4: when the current leg has a next waypoint, [nextWaypoint] makes
    current exactly the waypoint whose position
    [getNextWaypointPosition] reported before the call; no leg is added
    or removed and [currentRoute] reads the same. *)
Theorem nextWaypoint_reaches_reported_position fms leg rest waypoint :
  Fms.legCollection fms = leg :: rest ->
  LegModel.nextWaypoint leg = Some waypoint ->
  exists fms',
    Fms.getNextWaypointPosition fms = Returned (WaypointModel.position waypoint) fms
    /\ Fms.nextWaypoint policy fms = Returned tt fms'
    /\ Fms.currentWaypoint fms' = Returned (Some waypoint) fms'
    /\ length (Fms.legCollection fms') = length (Fms.legCollection fms)
    /\ (forall route, Fms.currentRoute fms = Returned route fms ->
                      Fms.currentRoute fms' = Returned route fms').
Proof.
  intros Hlegs Hwaypoint.
  assert (Hnext : LegModel.hasNextWaypoint leg = true)
    by (apply hasNextWaypoint_nextWaypoint; eauto).
  eexists. split; [by eapply getNextWaypointPosition_in_leg |].
  split; [by apply nextWaypoint_in_leg |].
  split; [rewrite currentWaypoint_at; by rewrite <- Hwaypoint |].
  split; [by rewrite Hlegs |].
  intros route. rewrite !currentRoute_returns, Hlegs. cbn. by intros [= <-].
Qed.

(** X5: inside a leg, [n] calls of [nextWaypoint] move the cursor by
    exactly [n] as long as it stays on a waypoint of the leg: no waypoint
    is skipped or repeated, and the legs behind are untouched. *)
Theorem nextWaypointTimes_in_leg (n : nat) fms leg rest :
  Fms.legCollection fms = leg :: rest ->
  0 <= LegModel.currentIndex leg + 1 ->
  LegModel.currentIndex leg + Z.of_nat n < Z.of_nat (length (LegModel.waypointCollection leg)) ->
  nextWaypointTimes policy n fms =
  Returned tt
    (Fms.setLegCollection
       (LegModel.skipToWaypointAtIndex (LegModel.currentIndex leg + Z.of_nat n) leg :: rest) fms).
Proof.
  revert fms leg. induction n as [|n IH]; intros fms leg Hlegs Hlow Hhigh.
  - cbn. rewrite Z.add_0_r, skipToWaypointAtIndex_same. by rewrite setLegCollection_eq.
  - cbn [nextWaypointTimes]. unfold bind.
    rewrite (nextWaypoint_in_leg policy fms leg rest Hlegs)
      by (apply hasNextWaypoint_true; lia).
    rewrite (IH _ (LegModel.skipToWaypointAtIndex (LegModel.currentIndex leg + 1) leg))
      by (cbn; first [reflexivity | lia]).
    unfold LegModel.skipToWaypointAtIndex, Fms.setLegCollection. cbn.
    by replace (LegModel.currentIndex leg + 1 + Z.of_nat n)
      with (LegModel.currentIndex leg + Z.of_nat (S n)) by lia.
Qed.

Lemma nextWaypoint_no_leg fms :
  Fms.legCollection fms = [] ->
  Fms.nextWaypoint policy fms = Threw (undefinedProperty "hasNextWaypoint") fms.
Proof. destruct fms; cbn; by intros ->. Qed.

(** The three ways in which [nextWaypoint] returns. *)
Lemma nextWaypoint_cases fms fms' :
  Fms.nextWaypoint policy fms = Returned tt fms' ->
  exists leg rest (step : Z),
    fms' =
    Fms.setLegCollection
      (LegModel.skipToWaypointAtIndex (LegModel.currentIndex leg + step) leg :: rest) fms
    /\ (step = 0 \/ (step = 1 /\ LegModel.hasNextWaypoint leg = true))
    /\ (Fms.legCollection fms = leg :: rest
        \/ exists exhausted,
             Fms.legCollection fms = exhausted :: leg :: rest
             /\ LegModel.hasNextWaypoint exhausted = false).
Proof.
  intros Hrun.
  destruct (Fms.legCollection fms) as [|leg rest] eqn:Hlegs.
  { by rewrite (nextWaypoint_no_leg fms Hlegs) in Hrun. }
  destruct (LegModel.hasNextWaypoint leg) eqn:Hnext.
  - rewrite (nextWaypoint_in_leg policy _ leg rest Hlegs Hnext) in Hrun.
    injection Hrun as <-.
    exists leg, rest, 1. split; [reflexivity |]. split; [by right | by left].
  - destruct rest as [|second rest].
    { by rewrite (nextWaypoint_at_end policy _ leg Hlegs Hnext) in Hrun. }
    destruct (LegModel.hasNextWaypoint second) eqn:Hsecond.
    + rewrite (nextWaypoint_to_next_leg policy _ leg second rest Hlegs Hnext Hsecond) in Hrun.
      injection Hrun as <-.
      exists second, rest, 1. split; [reflexivity |]. split; [by right |]. right. by exists leg.
    + rewrite (nextWaypoint_to_last_waypoint policy _ leg second rest Hlegs Hnext Hsecond)
        in Hrun.
      destruct policy; [| discriminate Hrun]. injection Hrun as <-.
      exists second, rest, 0. rewrite Z.add_0_r, skipToWaypointAtIndex_same.
      split; [reflexivity |]. split; [by left |]. right. by exists leg.
Qed.

(** X6: a call of [nextWaypoint] that returns never touches a waypoint
    list and removes at most one leg, the first one and only when it was
    exhausted: the waypoint lists afterwards are those before, or those
    before without the first; mode controller, aircraft type, runway,
    phase and navigation library are as before. *)
Theorem nextWaypoint_frame fms fms' :
  Fms.nextWaypoint policy fms = Returned tt fms' ->
  fms' = Fms.setLegCollection (Fms.legCollection fms') fms
  /\ (map LegModel.waypointCollection (Fms.legCollection fms')
      = map LegModel.waypointCollection (Fms.legCollection fms)
      \/ exists exhausted,
           Fms.legCollection fms !! 0%nat = Some exhausted
           /\ LegModel.hasNextWaypoint exhausted = false
           /\ map LegModel.waypointCollection (Fms.legCollection fms')
              = tail (map LegModel.waypointCollection (Fms.legCollection fms)))
  /\ map LegModel.routeString (Fms.legCollection fms')
     = drop (length (Fms.legCollection fms) - length (Fms.legCollection fms'))
         (map LegModel.routeString (Fms.legCollection fms)).
Proof.
  intros (leg & rest & step & -> & _ & Hbefore)%nextWaypoint_cases.
  split; [reflexivity |]. cbn.
  destruct Hbefore as [-> | (exhausted & -> & Hno)]; cbn.
  - split; [by left |]. by rewrite Nat.sub_diag.
  - split; [right; by exists exhausted |].
    by replace (S (length rest) - length rest)%nat with 1%nat by lia.
Qed.

(** X7: cursors that point at a waypoint keep doing so: when every leg
    has its cursor on one of its waypoints, the same holds after a call
    of [nextWaypoint] or of [skipToWaypoint] that returns, and on a
    non-empty route the current waypoint exists. *)
Theorem cursors_stay_valid fms :
  Forall cursorValid (Fms.legCollection fms) ->
  (forall fms', Fms.nextWaypoint policy fms = Returned tt fms' ->
                Forall cursorValid (Fms.legCollection fms'))
  /\ (forall (waypointName : string) fms',
        Fms.skipToWaypoint waypointName fms = Returned tt fms' ->
        Forall cursorValid (Fms.legCollection fms'))
  /\ (Fms.legCollection fms <> [] ->
      exists waypoint, Fms.currentWaypoint fms = Returned (Some waypoint) fms).
Proof.
  intros Hvalid. split; [| split].
  - intros fms' Hrun.
    destruct (nextWaypoint_cases fms fms' Hrun)
      as (leg & rest & step & -> & Hstep & Hbefore). cbn.
    assert (Hlegs : cursorValid leg /\ Forall cursorValid rest).
    { destruct Hbefore as [Hsame | (exhausted & Hdropped & _)].
      - rewrite Hsame in Hvalid. by apply Forall_cons in Hvalid.
      - rewrite Hdropped in Hvalid. apply Forall_cons in Hvalid as [_ Hvalid].
        by apply Forall_cons in Hvalid. }
    destruct Hlegs as [Hleg Hrest]. apply Forall_cons. split; [| done].
    destruct Hstep as [-> | [-> Hnext]].
    + by rewrite Z.add_0_r, skipToWaypointAtIndex_same.
    + apply hasNextWaypoint_true in Hnext. unfold cursorValid in *. cbn. lia.
  - intros waypointName fms' Hrun.
    destruct (decide (Exists (matches waypointName) (Fms.legCollection fms))) as [Hsome | Hnone].
    + destruct (skipToWaypoint_found fms waypointName Hsome)
        as (li & wi & leg & waypoint & Hli & _ & Hwi & _ & _ & Hfound).
      rewrite Hfound in Hrun. injection Hrun as <-. cbn.
      apply Forall_cons. split.
      * unfold cursorValid. cbn. apply lookup_lt_Some in Hwi. lia.
      * by apply Forall_drop.
    + rewrite skipToWaypoint_not_found in Hrun; [discriminate Hrun |].
      apply Forall_forall. intros leg Hleg Hmatch. apply Hnone. apply Exists_exists. eauto.
  - intros Hlegs. destruct (Fms.legCollection fms) as [|leg rest] eqn:Hcollection; [done |].
    apply Forall_cons in Hvalid as [[Hlow Hhigh] _].
    destruct (lookup_lt_is_Some_2 (LegModel.waypointCollection leg)
                (Z.to_nat (LegModel.currentIndex leg))) as [waypoint Hwaypoint]; [lia |].
    exists waypoint. rewrite (currentWaypoint_returns fms leg) by (by rewrite Hcollection).
    unfold LegModel.currentWaypoint, LegModel.entry.
    destruct (Z.ltb_spec (LegModel.currentIndex leg) 0); [lia |]. by rewrite Hwaypoint.
Qed.

End MoreWalking.

Lemma nextWaypoint_reaches_reported_position_witness :
  exists fms',
    Fms.getNextWaypointPosition (Route.arrival Route.vnav [Route.kepec3])
    = Returned (WaypointModel.position Route.misen) (Route.arrival Route.vnav [Route.kepec3])
    /\ Fms.nextWaypoint LegModel.NoOp (Route.arrival Route.vnav [Route.kepec3]) = Returned tt fms'
    /\ Fms.currentWaypoint fms' = Returned (Some Route.misen) fms'
    /\ length (Fms.legCollection fms') = 1%nat
    /\ (forall route,
          Fms.currentRoute (Route.arrival Route.vnav [Route.kepec3])
          = Returned route (Route.arrival Route.vnav [Route.kepec3]) ->
          Fms.currentRoute fms' = Returned route fms').
Proof.
  apply (nextWaypoint_reaches_reported_position LegModel.NoOp
           (Route.arrival Route.vnav [Route.kepec3]) Route.kepec3 [] Route.misen);
    reflexivity.
Defined.

Lemma nextWaypointTimes_in_leg_witness :
  nextWaypointTimes LegModel.FatalAssertion 3 (Route.arrival Route.vnav [Route.kepec3]) =
  Returned tt
    (Fms.setLegCollection [LegModel.skipToWaypointAtIndex 3 Route.kepec3]
       (Route.arrival Route.vnav [Route.kepec3])).
Proof.
  apply (nextWaypointTimes_in_leg LegModel.FatalAssertion 3
           (Route.arrival Route.vnav [Route.kepec3]) Route.kepec3 []).
  - reflexivity.
  - simpl. lia.
  - simpl. lia.
Defined.

Lemma nextWaypoint_frame_witness :
  map LegModel.routeString [LegModel.skipToWaypointAtIndex 1 Route.kepec3]
  = drop (2 - 1) (map LegModel.routeString [Route.direct Route.cowby; Route.kepec3]).
Proof.
  apply (nextWaypoint_frame LegModel.NoOp
           (Route.arrival Route.vnav [Route.direct Route.cowby; Route.kepec3])
           (Route.arrival Route.vnav [LegModel.skipToWaypointAtIndex 1 Route.kepec3])).
  reflexivity.
Defined.

Lemma cursors_stay_valid_witness :
  exists waypoint, Fms.currentWaypoint Route.filed = Returned (Some waypoint) Route.filed.
Proof.
  apply (cursors_stay_valid LegModel.NoOp Route.filed).
  - repeat (apply Forall_cons; split); try apply Forall_nil;
      unfold cursorValid; simpl; lia.
  - discriminate.
Defined.

Section MoreSkipping.

Context {NavigationLibrary : Type}.
Implicit Types (fms : Fms.t NavigationLibrary) (leg : LegModel.t).

Lemma findIndex_from_at {A : Type} (p : A -> bool) (array : list A) (i : Z) (k : nat) (x : A) :
  array !! k = Some x -> p x = true ->
  (forall (j : nat) (y : A), (j < k)%nat -> array !! j = Some y -> p y = false) ->
  Lodash.findIndex_from p array i = i + Z.of_nat k.
Proof.
  revert i k. induction array as [|a rest IH]; intros i k Hk Hx Hfirst; [done |].
  destruct k as [|k]; cbn in *.
  - injection Hk as ->. rewrite Hx. lia.
  - rewrite (Hfirst 0%nat a) by (first [lia | done]).
    rewrite (IH (i + 1) k Hk Hx); [lia |].
    intros j y Hj Hy. apply (Hfirst (S j) y); [lia | done].
Qed.

Lemma findFrom_ignores_case (legs : list LegModel.t) (i : nat) (name1 name2 : string) :
  sameNameIgnoringCase name1 name2 ->
  Fms.findFrom legs i name1 = Fms.findFrom legs i name2.
Proof.
  unfold sameNameIgnoringCase. intros Hsame. revert i.
  induction legs as [|leg rest IH]; intros i; cbn; [done |].
  rewrite Hsame. by rewrite IH.
Qed.

(** X8: [skipToWaypoint] is idempotent: after a call that returned, the
    same call again returns and leaves the instance as it is. *)
Theorem skipToWaypoint_twice fms (waypointName : string) fms' :
  Fms.skipToWaypoint waypointName fms = Returned tt fms' ->
  Fms.skipToWaypoint waypointName fms' = Returned tt fms'.
Proof.
  intros Hrun.
  destruct (decide (Exists (matches waypointName) (Fms.legCollection fms))) as [Hsome | Hnone].
  - destruct (skipToWaypoint_found fms waypointName Hsome)
      as (li & wi & leg & waypoint & Hli & _ & Hwi & Hname & Hfirst & Hfound).
    rewrite Hfound in Hrun. injection Hrun as <-.
    destruct fms as [nav mc td rw legs ph]. cbn in *.
    unfold Fms.skipToWaypoint, Fms._findLegAndWaypointIndexForWaypointName,
      Fms.currentLeg, Fms.writeCurrentLeg, deref, bind, ret, getThis, setThis.
    cbn. unfold Lodash._findIndex.
    rewrite (findIndex_from_at _ (LegModel.waypointCollection leg) 0 wi waypoint Hwi).
    + rewrite bool_decide_eq_true_2 by lia. reflexivity.
    + by apply hasName_true.
    + intros j other Hj Hother. apply hasName_false. eauto.
  - rewrite skipToWaypoint_not_found in Hrun; [discriminate Hrun |].
    apply Forall_forall. intros leg Hleg Hmatch. apply Hnone. apply Exists_exists. eauto.
Qed.

(** X9: the search [_findLegAndWaypointIndexForWaypointName] writes
    nothing and answers within bounds: either no waypoint carries the
    name in lower case, and it answers the number of legs with the index
    -1, or it answers the index of a leg and the index of a waypoint of
    that leg which carries that name. *)
Theorem find_within_bounds fms (waypointName : string) :
  exists found,
    Fms._findLegAndWaypointIndexForWaypointName waypointName fms = Returned found fms
    /\ ((Fms.legIndex found = length (Fms.legCollection fms)
         /\ Fms.waypointIndex found = -1
         /\ ~ Exists (matches waypointName) (Fms.legCollection fms))
        \/ exists leg waypoint,
             Fms.legCollection fms !! Fms.legIndex found = Some leg
             /\ 0 <= Fms.waypointIndex found
             /\ LegModel.waypointCollection leg !! Z.to_nat (Fms.waypointIndex found)
                = Some waypoint
             /\ WaypointModel.name waypoint = Str.toLowerCase waypointName).
Proof.
  eexists. split; [reflexivity |].
  destruct (decide (Exists (matches waypointName) (Fms.legCollection fms))) as [Hsome | Hnone].
  - right.
    destruct (findFrom_first waypointName (Fms.legCollection fms) 0 Hsome)
      as (li & wi & leg & waypoint & Hli & _ & Hwi & Hname & _ & ->).
    exists leg, waypoint. cbn. rewrite Nat2Z.id. repeat split; try done. lia.
  - left. rewrite (findFrom_none waypointName (Fms.legCollection fms) 0).
    + by repeat split.
    + apply Forall_forall. intros leg Hleg Hmatch. apply Hnone. apply Exists_exists. eauto.
Qed.

(** X10: the case of the argument does not matter to [skipToWaypoint]:
    two names that are equal up to case give the same result on every
    instance, thrown or returned. *)
Theorem skipToWaypoint_ignores_case fms (name1 name2 : string) :
  sameNameIgnoringCase name1 name2 ->
  Fms.skipToWaypoint name1 fms = Fms.skipToWaypoint name2 fms.
Proof.
  intros Hsame.
  unfold Fms.skipToWaypoint, Fms._findLegAndWaypointIndexForWaypointName, bind, ret, getThis.
  by rewrite (findFrom_ignores_case (Fms.legCollection fms) 0 name1 name2 Hsame).
Qed.

End MoreSkipping.

Lemma skipToWaypoint_twice_witness :
  Fms.skipToWaypoint "MISEN"
    (Route.arrival Route.vnav [LegModel.skipToWaypointAtIndex 1 Route.kepec3])
  = Returned tt (Route.arrival Route.vnav [LegModel.skipToWaypointAtIndex 1 Route.kepec3]).
Proof. apply (skipToWaypoint_twice Route.filed "MISEN"). reflexivity. Defined.

Lemma skipToWaypoint_ignores_case_witness :
  Fms.skipToWaypoint "Misen" Route.filed = Fms.skipToWaypoint "MISEN" Route.filed.
Proof. apply (skipToWaypoint_ignores_case Route.filed "Misen" "MISEN"). reflexivity. Defined.

Section MoreBuilding.

Context {NavigationLibrary : Type}.
Variable newLegModel :
  string -> string -> JsValue -> option NavigationLibrary -> option LegModel.t.
Variable newModeController : AircraftTypeDefinitionModel.t -> ModeController.t.
Implicit Types (fms : Fms.t NavigationLibrary) (leg : LegModel.t).

(** X11: [addLegToBeginning] builds the leg with the runway, phase and
    navigation library of the instance and puts it in front: it is the
    current leg, the legs there were follow in their order, and
    [currentRoute] is the new leg's route string, followed by [..] and
    the old route when there was one.  When the leg cannot be built the
    call throws and the instance is as before. *)
Theorem addLegToBeginning_front fms (routeString : string) :
  match newLegModel routeString (Fms._runwayName fms) (Fms.currentPhase fms)
          (Fms._navigationLibrary fms) with
  | Some leg =>
      exists fms',
        Fms.addLegToBeginning newLegModel routeString fms = Returned tt fms'
        /\ fms' = Fms.setLegCollection (leg :: Fms.legCollection fms) fms
        /\ Fms.currentWaypoint fms' = Returned (LegModel.currentWaypoint leg) fms'
        /\ (forall route,
              Fms.currentRoute fms = Returned route fms ->
              Fms.currentRoute fms' =
              Returned
                (if bool_decide (Fms.legCollection fms = []) then LegModel.routeString leg
                 else LegModel.routeString leg ++ ".." ++ route)
                fms')
  | None => Fms.addLegToBeginning newLegModel routeString fms = Threw LookupError fms
  end.
Proof.
  destruct (newLegModel _ _ _ _) as [leg|] eqn:Hleg.
  - eexists. split; [| split; [reflexivity | split; [reflexivity |]]].
    + unfold Fms.addLegToBeginning, liftLookup, bind, ret, getThis, setThis.
      by rewrite Hleg.
    + intros route. rewrite !currentRoute_returns. cbn. intros [= <-].
      destruct (Fms.legCollection fms) as [|first rest]; reflexivity.
  - unfold Fms.addLegToBeginning, liftLookup, bind, throw, getThis. by rewrite Hleg.
Qed.

(** X12: an instance that [new Fms(...)] returns has the phase
    [aircraftInitProps.category], the runway it was given, a fresh mode
    controller, and one leg for each segment of
    [aircraftInitProps.route], in the order of the route, each built with
    that runway and phase; if the leg of one segment cannot be built,
    there is no instance but the lookup error. *)
Theorem constructor_builds_one_leg_per_segment
    (aircraftInitProps : JsValue) (initialRunwayAssignment : string)
    (typeDefinitionModel : AircraftTypeDefinitionModel.t) (navigationLibrary : NavigationLibrary)
    (segments : list string) :
  Lodash._isObject aircraftInitProps = true ->
  Lodash._isEmpty aircraftInitProps = false ->
  RouteStringCodec.routeStringFormatHelper (getProp aircraftInitProps "route") = inr segments ->
  let build segment :=
    newLegModel segment initialRunwayAssignment (getProp aircraftInitProps "category")
      (Some navigationLibrary) in
  match Fms.constructor newLegModel newModeController aircraftInitProps initialRunwayAssignment
          typeDefinitionModel navigationLibrary with
  | inr fms =>
      Forall2 (fun segment leg => build segment = Some leg) segments (Fms.legCollection fms)
      /\ Fms.currentPhase fms = getProp aircraftInitProps "category"
      /\ Fms._runwayName fms = initialRunwayAssignment
      /\ Fms._modeController fms = newModeController typeDefinitionModel
      /\ Fms._aircraftTypeDefinition fms = typeDefinitionModel
      /\ Fms._navigationLibrary fms = Some navigationLibrary
  | inl e => e = LookupError /\ Exists (fun segment => build segment = None) segments
  end.
Proof.
  intros Hobject Hnonempty Hparse build.
  unfold Fms.constructor. rewrite Hobject, Hnonempty. cbv [negb orb].
  unfold Fms.init, Fms._buildInitialLegCollection, liftResult, liftLookup,
    bind, ret, throw, getThis, setThis.
  rewrite Hparse. cbn.
  destruct (mapM _ segments) as [legs|] eqn:Hlegs; cbn.
  - repeat split. by apply mapM_Some_1.
  - split; [reflexivity |]. by apply mapM_None_1.
Qed.

End MoreBuilding.

Lemma constructor_builds_one_leg_per_segment_witness :
  match Fms.constructor Route.newLegModel Route.newModeController
          (Route.initProps "cowby..prino") "19l" Route.b737 tt with
  | inr fms =>
      Forall2
        (fun segment leg =>
           Route.newLegModel segment "19l" (getProp (Route.initProps "cowby..prino") "category")
             (Some tt) = Some leg)
        ["cowby"; "prino"] (Fms.legCollection fms)
      /\ Fms.currentPhase fms = getProp (Route.initProps "cowby..prino") "category"
      /\ Fms._runwayName fms = "19l"
      /\ Fms._modeController fms = Route.newModeController Route.b737
      /\ Fms._aircraftTypeDefinition fms = Route.b737
      /\ Fms._navigationLibrary fms = Some tt
  | inl e =>
      e = LookupError
      /\ Exists
           (fun segment =>
              Route.newLegModel segment "19l"
                (getProp (Route.initProps "cowby..prino") "category") (Some tt) = None)
           ["cowby"; "prino"]
  end.
Proof.
  apply (constructor_builds_one_leg_per_segment Route.newLegModel Route.newModeController
           (Route.initProps "cowby..prino") "19l" Route.b737 tt ["cowby"; "prino"]);
    reflexivity.
Defined.

Section MoreModes.

Context {NavigationLibrary : Type}.
Implicit Types (fms : Fms.t NavigationLibrary) (leg : LegModel.t).
Implicit Types (waypoint : WaypointModel.t).

Lemma getAltitude_run_hold fms leg waypoint :
  Fms.legCollection fms !! 0%nat = Some leg ->
  LegModel.currentWaypoint leg = Some waypoint ->
  ModeController.altitudeMode (Fms._modeController fms) = ModeController.ALTITUDE_HOLD ->
  Fms.getAltitude fms = Returned (ModeController.altitude (Fms._modeController fms)) fms.
Proof.
  intros Hleg Hwaypoint Hhold. run_method. rewrite Hleg. cbn. rewrite Hwaypoint. cbn.
  by rewrite bool_decide_eq_true_2.
Qed.

(** X13: with a current waypoint, [setAltitudeHold(a)] makes
    [getAltitude] return [a] whatever the restriction, and
    [setAltitudeVnav] after it gives the altitude back to the route:
    [getAltitude] then returns the restriction of the current waypoint,
    or the ceiling when there is none.  Neither call touches the legs,
    the heading or the speed of the mode controller. *)
Theorem altitude_hold_then_vnav fms leg waypoint (held : Z) :
  Fms.legCollection fms !! 0%nat = Some leg ->
  LegModel.currentWaypoint leg = Some waypoint ->
  exists fms1 fms2,
    Fms.setAltitudeHold held fms = Returned tt fms1
    /\ Fms.getAltitude fms1 = Returned held fms1
    /\ Fms.setAltitudeVnav fms1 = Returned tt fms2
    /\ Fms.getAltitude fms2 =
       Returned
         (if bool_decide (WaypointModel.altitudeRestriction waypoint <> -1)
          then WaypointModel.altitudeRestriction waypoint
          else AircraftTypeDefinitionModel.ceiling (Fms._aircraftTypeDefinition fms))
         fms2
    /\ Fms.legCollection fms2 = Fms.legCollection fms
    /\ ModeController.headingMode (Fms._modeController fms2)
       = ModeController.headingMode (Fms._modeController fms)
    /\ ModeController.heading (Fms._modeController fms2)
       = ModeController.heading (Fms._modeController fms)
    /\ ModeController.speedMode (Fms._modeController fms2)
       = ModeController.speedMode (Fms._modeController fms)
    /\ ModeController.speed (Fms._modeController fms2)
       = ModeController.speed (Fms._modeController fms).
Proof.
  intros Hleg Hwaypoint. eexists _, _.
  split; [reflexivity |]. split.
  { apply (getAltitude_run_hold
             (Fms.setModeController
                (ModeController.setAltitudeModeAndValue ModeController.ALTITUDE_HOLD held
                   (Fms._modeController fms))
                fms)
             leg waypoint Hleg Hwaypoint eq_refl). }
  split.
  { unfold Fms.setAltitudeVnav. run_method. rewrite Hleg. cbn. rewrite Hwaypoint.
    reflexivity. }
  split; [| by repeat split].
  run_method. rewrite Hleg. cbn. rewrite Hwaypoint. reflexivity.
Qed.

(** X14: [setHeadingHold(h)] makes [getHeading] return [h], and
    [setHeadingLnav] after it brings the sentinel -999 back whatever
    heading it is given; the altitude and speed of the mode controller
    and the legs are untouched. *)
Theorem heading_hold_then_lnav fms (held lnav : Z) :
  exists fms1 fms2,
    Fms.setHeadingHold held fms = Returned tt fms1
    /\ Fms.getHeading fms1 = Returned held fms1
    /\ Fms.setHeadingLnav lnav fms1 = Returned tt fms2
    /\ Fms.getHeading fms2 = Returned (-999) fms2
    /\ Fms.legCollection fms2 = Fms.legCollection fms
    /\ ModeController.altitudeMode (Fms._modeController fms2)
       = ModeController.altitudeMode (Fms._modeController fms)
    /\ ModeController.altitude (Fms._modeController fms2)
       = ModeController.altitude (Fms._modeController fms)
    /\ ModeController.speedMode (Fms._modeController fms2)
       = ModeController.speedMode (Fms._modeController fms)
    /\ ModeController.speed (Fms._modeController fms2)
       = ModeController.speed (Fms._modeController fms).
Proof. eexists _, _. by repeat split. Qed.

End MoreModes.

Lemma altitude_hold_then_vnav_witness :
  exists fms1 fms2,
    Fms.setAltitudeHold 9000 (Route.arrival Route.vnav [Route.kepec3]) = Returned tt fms1
    /\ Fms.getAltitude fms1 = Returned 9000 fms1
    /\ Fms.setAltitudeVnav fms1 = Returned tt fms2
    /\ Fms.getAltitude fms2 = Returned 11000 fms2
    /\ Fms.legCollection fms2 = [Route.kepec3]
    /\ ModeController.headingMode (Fms._modeController fms2) = ModeController.HEADING_LNAV
    /\ ModeController.heading (Fms._modeController fms2) = -1
    /\ ModeController.speedMode (Fms._modeController fms2) = ModeController.SPEED_OTHER "VNAV"
    /\ ModeController.speed (Fms._modeController fms2) = -1.
Proof.
  apply (altitude_hold_then_vnav (Route.arrival Route.vnav [Route.kepec3]) Route.kepec3
           Route.dag 9000); reflexivity.
Defined.

(** * Properties of the class [Model] *)

(** Unfolds a call on a model down to the monad's primitives. *)
Ltac run_model :=
  unfold Model.loadDone, Model.loadFail, Model.generateAircraft, Model._generatePendingAircraft,
    Model._generateAircraft, Model.init, Model.load, Model.parse, Model.updateThis,
    Model.loadAsset, Model.consoleCall, Model.pushAircraft,
    liftResult, bind, ret, throw, getThis, setThis;
  cbn.

Section ModelProperties.

Context {Aircraft : Type}.
Variable newAircraft : JsValue -> Model.t -> Error + Aircraft.
Variable getCallsign : Aircraft -> Error + string.

Implicit Types (world : Model.World Aircraft) (m : Model.t) (data options : JsValue).

Section AssignIf.

Variables (f_loading f_loaded f_priorityLoad : bool).
Variables (f_name f_icao f_engines f_weightclass f_category f_ceiling : JsValue).
Variables (f_rate f_runway f_speed : JsValue) (f_pending : list JsValue) (f_url : JsValue).
Variable value : JsValue.

Lemma assignIf_name :
  Model.assignIf value Model.setName
    (Model.mk f_loading f_loaded f_priorityLoad f_name
      f_icao f_engines f_weightclass f_category f_ceiling f_rate f_runway f_speed f_pending
      f_url)
  = Model.mk f_loading f_loaded f_priorityLoad (Model.pick value f_name) f_icao f_engines
      f_weightclass f_category f_ceiling f_rate f_runway f_speed f_pending f_url.
Proof. unfold Model.assignIf, Model.pick. by destruct (truthy value). Qed.

Lemma assignIf_icao :
  Model.assignIf value Model.setIcao
    (Model.mk f_loading f_loaded f_priorityLoad f_name
      f_icao f_engines f_weightclass f_category f_ceiling f_rate f_runway f_speed f_pending
      f_url)
  = Model.mk f_loading f_loaded f_priorityLoad f_name (Model.pick value f_icao) f_engines
      f_weightclass f_category f_ceiling f_rate f_runway f_speed f_pending f_url.
Proof. unfold Model.assignIf, Model.pick. by destruct (truthy value). Qed.

Lemma assignIf_engines :
  Model.assignIf value Model.setEngines
    (Model.mk f_loading f_loaded f_priorityLoad f_name
      f_icao f_engines f_weightclass f_category f_ceiling f_rate f_runway f_speed f_pending
      f_url)
  = Model.mk f_loading f_loaded f_priorityLoad f_name f_icao (Model.pick value f_engines)
      f_weightclass f_category f_ceiling f_rate f_runway f_speed f_pending f_url.
Proof. unfold Model.assignIf, Model.pick. by destruct (truthy value). Qed.

Lemma assignIf_weightclass :
  Model.assignIf value Model.setWeightclass
    (Model.mk f_loading f_loaded f_priorityLoad
      f_name f_icao f_engines f_weightclass f_category f_ceiling f_rate f_runway f_speed
      f_pending f_url)
  = Model.mk f_loading f_loaded f_priorityLoad f_name f_icao f_engines (Model.pick value
      f_weightclass) f_category f_ceiling f_rate f_runway f_speed f_pending f_url.
Proof. unfold Model.assignIf, Model.pick. by destruct (truthy value). Qed.

Lemma assignIf_category :
  Model.assignIf value Model.setCategory
    (Model.mk f_loading f_loaded f_priorityLoad f_name
      f_icao f_engines f_weightclass f_category f_ceiling f_rate f_runway f_speed f_pending
      f_url)
  = Model.mk f_loading f_loaded f_priorityLoad f_name f_icao f_engines f_weightclass (Model.pick
      value f_category) f_ceiling f_rate f_runway f_speed f_pending f_url.
Proof. unfold Model.assignIf, Model.pick. by destruct (truthy value). Qed.

Lemma assignIf_ceiling :
  Model.assignIf value Model.setCeiling
    (Model.mk f_loading f_loaded f_priorityLoad f_name
      f_icao f_engines f_weightclass f_category f_ceiling f_rate f_runway f_speed f_pending
      f_url)
  = Model.mk f_loading f_loaded f_priorityLoad f_name f_icao f_engines f_weightclass f_category
      (Model.pick value f_ceiling) f_rate f_runway f_speed f_pending f_url.
Proof. unfold Model.assignIf, Model.pick. by destruct (truthy value). Qed.

Lemma assignIf_runway :
  Model.assignIf value Model.setRunway
    (Model.mk f_loading f_loaded f_priorityLoad f_name
      f_icao f_engines f_weightclass f_category f_ceiling f_rate f_runway f_speed f_pending
      f_url)
  = Model.mk f_loading f_loaded f_priorityLoad f_name f_icao f_engines f_weightclass f_category
      f_ceiling f_rate (Model.pick value f_runway) f_speed f_pending f_url.
Proof. unfold Model.assignIf, Model.pick. by destruct (truthy value). Qed.

Lemma assignIf_speed :
  Model.assignIf value Model.setSpeed
    (Model.mk f_loading f_loaded f_priorityLoad f_name
      f_icao f_engines f_weightclass f_category f_ceiling f_rate f_runway f_speed f_pending
      f_url)
  = Model.mk f_loading f_loaded f_priorityLoad f_name f_icao f_engines f_weightclass f_category
      f_ceiling f_rate f_runway (Model.pick value f_speed) f_pending f_url.
Proof. unfold Model.assignIf, Model.pick. by destruct (truthy value). Qed.

Lemma assignIf_rate :
  Model.assignIf value Model.setRate
    (Model.mk f_loading f_loaded f_priorityLoad f_name
      f_icao f_engines f_weightclass f_category f_ceiling f_rate f_runway f_speed f_pending
      f_url)
  = Model.mk f_loading f_loaded f_priorityLoad f_name f_icao f_engines f_weightclass f_category
      f_ceiling (Model.pick value f_rate) f_runway f_speed f_pending f_url.
Proof. unfold Model.assignIf, Model.pick. by destruct (truthy value). Qed.

End AssignIf.

(** [parse] field by field. *)
Lemma parseFields_eq data m :
  Model.parseFields data m
  = Model.mk
      (Model.loading m)
      (Model.loaded m)
      (Model.priorityLoad m)
      (Model.pick (getProp data "name") (Model.name m))
      (Model.pick (getProp data "icao") (Model.icao m))
      (Model.pick (getProp data "engines") (Model.engines m))
      (Model.pick (getProp data "weightclass") (Model.weightclass m))
      (Model.pick (getProp data "category") (Model.category m))
      (Model.pick (getProp data "ceiling") (Model.ceiling m))
      (Model.pick (getProp data "rate") (Model.rate m))
      (Model.pick (getProp data "runway") (Model.runway m))
      (Model.pick (getProp data "speed") (Model.speed m))
      (Model._pendingAircraft m)
      (Model._url m).
Proof.
  destruct m. unfold Model.parseFields. cbv zeta.
  rewrite assignIf_name, assignIf_icao, assignIf_engines, assignIf_weightclass,
    assignIf_category, assignIf_ceiling, assignIf_runway, assignIf_speed, assignIf_rate.
  reflexivity.
Qed.

Lemma pick_twice (value old : JsValue) :
  Model.pick value (Model.pick value old) = Model.pick value old.
Proof. unfold Model.pick. by destruct (truthy value). Qed.

Lemma parseFields_twice data m :
  Model.parseFields data (Model.parseFields data m) = Model.parseFields data m.
Proof. rewrite !parseFields_eq. cbn. by rewrite !pick_twice. Qed.

Lemma parseFields_keeps data m :
  Model.loading (Model.parseFields data m) = Model.loading m
  /\ Model.loaded (Model.parseFields data m) = Model.loaded m
  /\ Model.priorityLoad (Model.parseFields data m) = Model.priorityLoad m
  /\ Model._pendingAircraft (Model.parseFields data m) = Model._pendingAircraft m
  /\ Model._url (Model.parseFields data m) = Model._url m.
Proof. rewrite parseFields_eq. by repeat split. Qed.

Lemma parse_returns data world :
  nullish data = false ->
  Model.parse data world =
  Returned tt
    (Model.mkWorld (Model.parseFields data (Model.this world)) (Model.aircraftList world)
       (Model.assetRequests world) (Model.console world)).
Proof. by destruct data. Qed.

(** X15: [parse] assigns each of the nine descriptive fields exactly
    when the data holds a truthy value for it, and then that value: a
    ceiling that is 0, [null], [false], the empty string or missing
    leaves the ceiling the model had.  It touches nothing else, and
    parsing the same data again changes nothing. *)
Theorem parse_assigns_truthy data world :
  nullish data = false ->
  exists world',
    Model.parse data world = Returned tt world'
    /\ Model.this world' =
       Model.mk
         (Model.loading (Model.this world))
         (Model.loaded (Model.this world))
         (Model.priorityLoad (Model.this world))
         (if truthy (getProp data "name") then getProp data "name"
          else Model.name (Model.this world))
         (if truthy (getProp data "icao") then getProp data "icao"
          else Model.icao (Model.this world))
         (if truthy (getProp data "engines") then getProp data "engines"
          else Model.engines (Model.this world))
         (if truthy (getProp data "weightclass") then getProp data "weightclass"
          else Model.weightclass (Model.this world))
         (if truthy (getProp data "category") then getProp data "category"
          else Model.category (Model.this world))
         (if truthy (getProp data "ceiling") then getProp data "ceiling"
          else Model.ceiling (Model.this world))
         (if truthy (getProp data "rate") then getProp data "rate"
          else Model.rate (Model.this world))
         (if truthy (getProp data "runway") then getProp data "runway"
          else Model.runway (Model.this world))
         (if truthy (getProp data "speed") then getProp data "speed"
          else Model.speed (Model.this world))
         (Model._pendingAircraft (Model.this world))
         (Model._url (Model.this world))
    /\ Model.parse data world' = Returned tt world'
    /\ Model.aircraftList world' = Model.aircraftList world
    /\ Model.assetRequests world' = Model.assetRequests world
    /\ Model.console world' = Model.console world.
Proof.
  intros Hdata. eexists. split; [by apply parse_returns |]. cbn.
  split; [by rewrite parseFields_eq |].
  split; [| by repeat split].
  rewrite parse_returns by done. cbn. by rewrite parseFields_twice.
Qed.

Lemma init_run options world :
  options <> JsNull ->
  Model.init options world =
  Returned tt
    (Model.mkWorld
       (let parsed :=
          Model.parseFields
            (match options with JsUndefined => JsObject [] | _ => options end)
            (Model.initial (Model.this world)) in
        if truthy (getProp options "url") then Model.setUrl (getProp options "url") parsed
        else parsed)
       (Model.aircraftList world)
       (Model.assetRequests world
        ++ (if truthy (getProp options "url")
            then [Model.mkRequest (getProp options "url") false]
            else []))%list
       (Model.console world)).
Proof.
  intros Hnull.
  destruct options as [| | | | | |props]; try done; run_model;
    try (by rewrite app_nil_r).
  destruct (truthy (assoc "url" props)); cbn; [reflexivity | by rewrite app_nil_r].
Qed.

(** X16: [init] leaves the model loading, not loaded, with an empty
    queue, and sends one asset request, not immediate, exactly when the
    options carry a truthy [url]: a model made without a url is loading
    although nothing was asked for. *)
Theorem init_requests_url options world :
  options <> JsNull ->
  exists world',
    Model.init options world = Returned tt world'
    /\ Model.loading (Model.this world') = true
    /\ Model.loaded (Model.this world') = false
    /\ Model.priorityLoad (Model.this world') = false
    /\ Model._pendingAircraft (Model.this world') = []
    /\ Model.assetRequests world' =
       (Model.assetRequests world
        ++ (if truthy (getProp options "url")
            then [Model.mkRequest (getProp options "url") false]
            else []))%list
    /\ Model.aircraftList world' = Model.aircraftList world.
Proof.
  intros Hnull. eexists. split; [by apply init_run |]. cbn.
  destruct (parseFields_keeps
              (match options with JsUndefined => JsObject [] | _ => options end)
              (Model.initial (Model.this world)))
    as (Hloading & Hloaded & Hpriority & Hpending & _).
  destruct (truthy (getProp options "url")); cbn;
    rewrite Hloading, Hloaded, Hpriority, Hpending; by repeat split.
Qed.

Lemma setPriorityLoad_true m :
  Model.priorityLoad m = true -> Model.setPriorityLoad true m = m.
Proof. destruct m; cbn. by intros ->. Qed.

Lemma generateAircraft_loading options world :
  Model.loading (Model.this world) = true ->
  Model.loaded (Model.this world) = false ->
  Model.generateAircraft newAircraft getCallsign options world =
  Returned true
    (Model.mkWorld
       (Model.setPriorityLoad true
          (Model.setPendingAircraft
             (Model._pendingAircraft (Model.this world) ++ [options])%list (Model.this world)))
       (Model.aircraftList world)
       (Model.assetRequests world
        ++ (if Model.priorityLoad (Model.this world) then []
            else [Model.mkRequest (Model._url (Model.this world)) true]))%list
       (Model.console world)).
Proof.
  destruct world as [m aircraft requests console]. cbn. intros Hloading Hloaded.
  run_model. rewrite Hloaded, Hloading. cbn.
  destruct (Model.priorityLoad m) eqn:Hpriority; cbn; [| reflexivity].
  rewrite app_nil_r. do 2 f_equal.
  symmetry. apply setPriorityLoad_true. exact Hpriority.
Qed.

Lemma generateAll_loading (requests : list JsValue) world :
  Model.loading (Model.this world) = true ->
  Model.loaded (Model.this world) = false ->
  Model.generateAll newAircraft getCallsign requests world =
  Returned (replicate (length requests) true)
    (Model.mkWorld
       (if bool_decide (requests = []) then Model.this world
        else Model.setPriorityLoad true
               (Model.setPendingAircraft
                  (Model._pendingAircraft (Model.this world) ++ requests)%list
                  (Model.this world)))
       (Model.aircraftList world)
       (Model.assetRequests world
        ++ (if Model.priorityLoad (Model.this world) || bool_decide (requests = []) then []
            else [Model.mkRequest (Model._url (Model.this world)) true]))%list
       (Model.console world)).
Proof.
  revert world. induction requests as [|options rest IH]; intros world Hloading Hloaded.
  - cbn. rewrite orb_true_r, app_nil_r. by destruct world.
  - cbn [Model.generateAll]. unfold bind at 1.
    rewrite (generateAircraft_loading options world Hloading Hloaded).
    unfold bind at 1. rewrite IH by (by destruct world as [[]]).
    unfold ret. cbn. rewrite orb_false_r.
    destruct world as [m aircraft sent console]. cbn.
    destruct rest as [|next rest]; cbn.
    + by rewrite app_nil_r.
    + rewrite <- !app_assoc. cbn.
      destruct (Model.priorityLoad m); cbn; by rewrite ?app_nil_r.
Qed.

(** X17: while the model is loading, every call of [generateAircraft]
    answers true and builds nothing: the options are queued in the order
    of the calls, and the immediate asset request goes out once, with the
    first call that finds it not yet sent. *)
Theorem generateAll_queues (requests : list JsValue) world :
  Model.loading (Model.this world) = true ->
  Model.loaded (Model.this world) = false ->
  exists world',
    Model.generateAll newAircraft getCallsign requests world
    = Returned (replicate (length requests) true) world'
    /\ Model._pendingAircraft (Model.this world')
       = (Model._pendingAircraft (Model.this world) ++ requests)%list
    /\ Model.aircraftList world' = Model.aircraftList world
    /\ Model.assetRequests world' =
       (Model.assetRequests world
        ++ (if Model.priorityLoad (Model.this world) || bool_decide (requests = []) then []
            else [Model.mkRequest (Model._url (Model.this world)) true]))%list
    /\ Model.priorityLoad (Model.this world')
       = (Model.priorityLoad (Model.this world) || negb (bool_decide (requests = [])))
    /\ Model.loading (Model.this world') = true
    /\ Model.loaded (Model.this world') = false.
Proof.
  intros Hloading Hloaded. eexists.
  split; [by apply generateAll_loading |]. cbn.
  destruct requests as [|options rest]; cbn.
  - rewrite app_nil_r, orb_false_r. by repeat split.
  - rewrite orb_true_r. by repeat split.
Qed.

(** The loop over the queue, when every aircraft can be built on the
    model as it is: the model itself is not touched by the loop. *)
Lemma eachPending_builds (queue : list JsValue) (built : list Aircraft) m world :
  Forall2 (builds newAircraft getCallsign m) queue built ->
  Model.this world = m ->
  Model.eachPending newAircraft getCallsign queue world =
  Returned tt
    (Model.mkWorld m (Model.aircraftList world ++ built)%list
       (Model.assetRequests world)
       (Model.console world ++ replicate (length queue) Model.ConsoleLog)%list).
Proof.
  intros Hbuilt. revert world.
  induction Hbuilt as [|options aircraft rest others (Hobject & Hnew & callsign & Hcallsign) _ IH];
    intros world <-.
  - cbn. rewrite !app_nil_r. by destruct world.
  - cbn [Model.eachPending]. unfold bind at 1. unfold Model._generateAircraft.
    rewrite Hobject. run_model. rewrite Hnew. cbn. rewrite Hcallsign. cbn.
    rewrite IH by reflexivity. cbn. by rewrite <- !app_assoc.
Qed.

(** The same loop when the constructor throws on one of the queued
    options: the aircraft before it are built, and the loop stops. *)
Lemma eachPending_throws (before after : list JsValue) (failing : JsValue)
    (built : list Aircraft) (e : Error) m world :
  Forall2 (builds newAircraft getCallsign m) before built ->
  Lodash._isObject failing = true ->
  newAircraft failing m = inl e ->
  Model.this world = m ->
  Model.eachPending newAircraft getCallsign (before ++ failing :: after)%list world =
  Threw e
    (Model.mkWorld m (Model.aircraftList world ++ built)%list
       (Model.assetRequests world)
       (Model.console world ++ replicate (length before) Model.ConsoleLog)%list).
Proof.
  intros Hbuilt Hobject Hthrows. revert world.
  induction Hbuilt as [|options aircraft rest others (Hfirst & Hnew & callsign & Hcallsign) _ IH];
    intros world <-.
  - cbn [app Model.eachPending].
    unfold bind at 1. unfold Model._generateAircraft. rewrite Hobject. run_model.
    rewrite Hthrows. cbn. rewrite !app_nil_r. by destruct world.
  - cbn [app Model.eachPending]. unfold bind at 1. unfold Model._generateAircraft.
    rewrite Hfirst. run_model. rewrite Hnew. cbn. rewrite Hcallsign. cbn.
    rewrite IH by reflexivity. cbn. by rewrite <- !app_assoc.
Qed.

Lemma arrived_eq data m :
  arrived data m
  = Model.mk false true (Model.priorityLoad m)
      (Model.pick (getProp data "name") (Model.name m))
      (Model.pick (getProp data "icao") (Model.icao m))
      (Model.pick (getProp data "engines") (Model.engines m))
      (Model.pick (getProp data "weightclass") (Model.weightclass m))
      (Model.pick (getProp data "category") (Model.category m))
      (Model.pick (getProp data "ceiling") (Model.ceiling m))
      (Model.pick (getProp data "rate") (Model.rate m))
      (Model.pick (getProp data "runway") (Model.runway m))
      (Model.pick (getProp data "speed") (Model.speed m))
      (Model._pendingAircraft m)
      (Model._url m).
Proof. unfold arrived. by rewrite parseFields_eq. Qed.

Lemma loadDone_run data world (built : list Aircraft) :
  nullish data = false ->
  Forall2 (builds newAircraft getCallsign (arrived data (Model.this world)))
    (Model._pendingAircraft (Model.this world)) built ->
  Model.loadDone newAircraft getCallsign data world =
  Returned tt
    (Model.mkWorld
       (Model.setPendingAircraft [] (arrived data (Model.this world)))
       (Model.aircraftList world ++ built)%list
       (Model.assetRequests world)
       (Model.console world
        ++ replicate (length (Model._pendingAircraft (Model.this world))) Model.ConsoleLog)%list).
Proof.
  intros Hdata Hbuilt.
  unfold Model.loadDone. unfold bind at 1. rewrite parse_returns by done.
  unfold Model._generatePendingAircraft. run_model.
  destruct (parseFields_keeps data (Model.this world)) as (_ & _ & _ & Hpending & _).
  rewrite Hpending.
  rewrite (eachPending_builds _ built (arrived data (Model.this world))); done.
Qed.

(** When the constructor throws on a queued options object, the [done]
    callback throws with it: the model is marked loaded, the aircraft
    queued before are built, and the queue is not emptied. *)
Lemma loadDone_throws data world (before after : list JsValue) (failing : JsValue)
    (built : list Aircraft) (e : Error) :
  nullish data = false ->
  Model._pendingAircraft (Model.this world) = (before ++ failing :: after)%list ->
  Forall2 (builds newAircraft getCallsign (arrived data (Model.this world))) before built ->
  Lodash._isObject failing = true ->
  newAircraft failing (arrived data (Model.this world)) = inl e ->
  Model.loadDone newAircraft getCallsign data world =
  Threw e
    (Model.mkWorld (arrived data (Model.this world))
       (Model.aircraftList world ++ built)%list
       (Model.assetRequests world)
       (Model.console world ++ replicate (length before) Model.ConsoleLog)%list).
Proof.
  intros Hdata Hqueue Hbuilt Hobject Hthrows.
  unfold Model.loadDone. unfold bind at 1. rewrite parse_returns by done.
  unfold Model._generatePendingAircraft. run_model.
  destruct (parseFields_keeps data (Model.this world)) as (_ & _ & _ & Hpending & _).
  rewrite Hpending, Hqueue.
  rewrite (eachPending_throws before after failing built e (arrived data (Model.this world)));
    done.
Qed.

Lemma generateAircraft_loaded options (aircraft : Aircraft) world :
  Model.loaded (Model.this world) = true ->
  builds newAircraft getCallsign (Model.this world) options aircraft ->
  Model.generateAircraft newAircraft getCallsign options world =
  Returned true
    (Model.mkWorld (Model.this world) (Model.aircraftList world ++ [aircraft])%list
       (Model.assetRequests world) (Model.console world ++ [Model.ConsoleLog])%list).
Proof.
  intros Hloaded (Hobject & Hnew & callsign & Hcallsign). run_model.
  rewrite Hloaded, Hobject. cbn. rewrite Hnew. cbn. by rewrite Hcallsign.
Qed.

(** X18: when the data arrives and the aircraft constructor returns for
    every queued options object, [loadDone] assigns the truthy fields of
    the data as [parse] does, marks the model loaded and no longer
    loading, and builds the queued aircraft in the order of the queue,
    behind the aircraft there were; the queue is then empty and no asset
    request is sent.  From then on [generateAircraft] builds at once and
    queues nothing. *)
Theorem loadDone_builds_queue data world (built : list Aircraft) :
  nullish data = false ->
  Forall2 (builds newAircraft getCallsign (arrived data (Model.this world)))
    (Model._pendingAircraft (Model.this world)) built ->
  exists world',
    Model.loadDone newAircraft getCallsign data world = Returned tt world'
    /\ Model.this world' =
       Model.mk false true (Model.priorityLoad (Model.this world))
         (if truthy (getProp data "name") then getProp data "name"
          else Model.name (Model.this world))
         (if truthy (getProp data "icao") then getProp data "icao"
          else Model.icao (Model.this world))
         (if truthy (getProp data "engines") then getProp data "engines"
          else Model.engines (Model.this world))
         (if truthy (getProp data "weightclass") then getProp data "weightclass"
          else Model.weightclass (Model.this world))
         (if truthy (getProp data "category") then getProp data "category"
          else Model.category (Model.this world))
         (if truthy (getProp data "ceiling") then getProp data "ceiling"
          else Model.ceiling (Model.this world))
         (if truthy (getProp data "rate") then getProp data "rate"
          else Model.rate (Model.this world))
         (if truthy (getProp data "runway") then getProp data "runway"
          else Model.runway (Model.this world))
         (if truthy (getProp data "speed") then getProp data "speed"
          else Model.speed (Model.this world))
         []
         (Model._url (Model.this world))
    /\ Model.aircraftList world' = (Model.aircraftList world ++ built)%list
    /\ Model.assetRequests world' = Model.assetRequests world
    /\ forall options (aircraft : Aircraft),
         builds newAircraft getCallsign (Model.this world') options aircraft ->
         exists world'',
           Model.generateAircraft newAircraft getCallsign options world' = Returned true world''
           /\ Model.aircraftList world'' = (Model.aircraftList world' ++ [aircraft])%list
           /\ Model.this world'' = Model.this world'
           /\ Model.assetRequests world'' = Model.assetRequests world.
Proof.
  intros Hdata Hbuilt. eexists.
  split; [by apply loadDone_run |].
  split; [cbn; by rewrite arrived_eq |].
  do 2 (split; [reflexivity |]).
  intros options aircraft Hbuilds. eexists.
  split; [apply generateAircraft_loaded; [reflexivity | exact Hbuilds] |].
  by repeat split.
Qed.


(** X20: when the load fails, [loadFail] empties the queue without
    building anything, and a model that is neither loaded nor loading
    refuses from then on: [generateAircraft] answers false, builds
    nothing, queues nothing and sends no request. *)
Theorem loadFail_drops_queue world :
  Model.loaded (Model.this world) = false ->
  exists world',
    Model.loadFail world = Returned tt world'
    /\ Model.aircraftList world' = Model.aircraftList world
    /\ Model._pendingAircraft (Model.this world') = []
    /\ Model.loading (Model.this world') = false
    /\ Model.assetRequests world' = Model.assetRequests world
    /\ forall options,
         nullish options = false ->
         exists world'',
           Model.generateAircraft newAircraft getCallsign options world'
           = Returned false world''
           /\ Model.aircraftList world'' = Model.aircraftList world
           /\ Model._pendingAircraft (Model.this world'') = []
           /\ Model.assetRequests world'' = Model.assetRequests world
           /\ Model.this world'' = Model.this world'.
Proof.
  intros Hloaded. eexists. split; [reflexivity |]. cbn. repeat split.
  intros options Hoptions. run_model. rewrite Hloaded. cbn.
  destruct options; try done; eexists; by repeat split.
Qed.

End ModelProperties.

Lemma parse_assigns_truthy_witness :
  exists world',
    Model.parse Fleet.grounded Fleet.loaded = Returned tt world'
    /\ Model.ceiling (Model.this world') = JsNumber 41000
    /\ Model.name (Model.this world') = JsString "Boeing 737-800 (stored)".
Proof.
  destruct (parse_assigns_truthy Fleet.grounded Fleet.loaded eq_refl)
    as (world' & Hrun & Hthis & _).
  exists world'. split; [exact Hrun |]. rewrite Hthis. by split.
Defined.

Lemma init_requests_url_witness :
  (exists world',
     Model.init Fleet.byUrl (Model.emptyWorld (Aircraft := JsValue)) = Returned tt world'
     /\ Model.loading (Model.this world') = true
     /\ Model.assetRequests world'
        = [Model.mkRequest (JsString "assets/aircraft/b738.json") false])
  /\ (exists world',
        Model.init JsUndefined (Model.emptyWorld (Aircraft := JsValue)) = Returned tt world'
        /\ Model.loading (Model.this world') = true
        /\ Model.assetRequests world' = []).
Proof.
  split.
  - destruct (init_requests_url Fleet.byUrl (Model.emptyWorld (Aircraft := JsValue)))
      as (world' & Hrun & Hloading & Hrest); [discriminate |].
    exists world'. split; [exact Hrun |]. split; [exact Hloading |]. apply Hrest.
  - destruct (init_requests_url JsUndefined (Model.emptyWorld (Aircraft := JsValue)))
      as (world' & Hrun & Hloading & Hrest); [discriminate |].
    exists world'. split; [exact Hrun |]. split; [exact Hloading |]. apply Hrest.
Defined.

Lemma generateAll_queues_witness :
  exists world',
    Model.generateAll Fleet.newAircraft Fleet.getCallsign
      [Fleet.flight "AAL12"; Fleet.flight "UAL34"; Fleet.flight "DAL56"]
      (Fleet.created Fleet.byUrl)
    = Returned [true; true; true] world'
    /\ Model._pendingAircraft (Model.this world')
       = [Fleet.flight "AAL12"; Fleet.flight "UAL34"; Fleet.flight "DAL56"]
    /\ Model.aircraftList world' = []
    /\ Model.assetRequests world'
       = [Model.mkRequest (JsString "assets/aircraft/b738.json") false;
          Model.mkRequest (JsString "assets/aircraft/b738.json") true].
Proof.
  destruct (generateAll_queues Fleet.newAircraft Fleet.getCallsign
              [Fleet.flight "AAL12"; Fleet.flight "UAL34"; Fleet.flight "DAL56"]
              (Fleet.created Fleet.byUrl) eq_refl eq_refl)
    as (world' & Hrun & Hqueue & Hbuilt & Hsent & _).
  exists world'. by repeat split.
Defined.

Lemma loadDone_builds_queue_witness :
  exists world',
    Model.loadDone Fleet.newAircraft Fleet.getCallsign Fleet.b738 Fleet.waiting
    = Returned tt world'
    /\ Model.aircraftList world' = [Fleet.flight "AAL12"; Fleet.flight "UAL34"]
    /\ Model.ceiling (Model.this world') = JsNumber 41000
    /\ Model.loaded (Model.this world') = true
    /\ Model._pendingAircraft (Model.this world') = [].
Proof.
  destruct (loadDone_builds_queue Fleet.newAircraft Fleet.getCallsign Fleet.b738 Fleet.waiting
              [Fleet.flight "AAL12"; Fleet.flight "UAL34"])
    as (world' & Hrun & Hthis & Hbuilt & _).
  - reflexivity.
  - unfold Fleet.waiting. cbn [Model._pendingAircraft Model.this].
    repeat (constructor; [split; [reflexivity | split; [reflexivity | by eexists]] |]).
    constructor.
  - exists world'. split; [exact Hrun |]. split; [exact Hbuilt |]. rewrite Hthis. by repeat split.
Defined.


Lemma loadFail_drops_queue_witness :
  exists world' world'',
    Model.loadFail Fleet.waiting = Returned tt world'
    /\ Model._pendingAircraft (Model.this world') = []
    /\ Model.generateAircraft Fleet.newAircraft Fleet.getCallsign (Fleet.flight "DAL56") world'
       = Returned false world''
    /\ Model.aircraftList world'' = [].
Proof.
  destruct (loadFail_drops_queue Fleet.newAircraft Fleet.getCallsign Fleet.waiting)
    as (world' & Hrun & _ & Hqueue & _ & _ & Hrefuse); [reflexivity |].
  destruct (Hrefuse (Fleet.flight "DAL56") eq_refl) as (world'' & Hanswer & Hbuilt & _).
  exists world', world''. by repeat split.
Defined.

(** * The route string through construction *)














